(** * siobg: the Nightscout / OpenAPS socket bridge (src/siobg.py)

    A shallow embedding of the bridge's handlers and the properties of
    its specification.

    Data model.  The program is Python 2 and works on parsed JSON.
    - A JSON scalar is a [value]: [None], a number or a text.  Python's
      [bool] is the integers 1 and 0 for equality, hashing, ordering,
      arithmetic and truth, so [VNum] stands for it too.  Numbers are
      canonical rationals ([Qc]): equality of values is then Python's
      [==]; the rounding of binary floating point is outside the model.
    - A JSON object whose fields are scalars (a treatment, an sgv record,
      a normalized glucose entry) is a [gmap string value]; a devicestatus
      record may nest one object ([field]).
    - Dictionaries of the program are finite maps; [values()] enumerates
      them in the map's canonical order (Python 2 leaves it unspecified).
    - The clock, the local-time formatter of [datetime] and the [float]
      parser are read from an environment [env] given with every event;
      all the clock readings taken while one event is handled are the
      same instant.
    - Files hold the list that [json.dumps] serialises, and their
      modification time.
    - Exceptions and the mutable attributes of the namespace object are
      threaded by a state-and-exception monad [M].
    - The timers of [debounce] and [throttle] run on threads of their
      own; a timer that fires is a step of its own here.  The alarm of
      [WatchdogTimer] and the file observer are not part of the model. *)

From Stdlib Require Import Ascii String QArith Qcanon Sorted.
From stdpp Require Import gmap strings list fin_maps numbers.

Open Scope Z_scope.

(** ** Values *)

Inductive value :=
  | VNone
  | VNum (q : Qc)
  | VStr (s : string).

Inductive field :=
  | Atom (v : value)
  | Obj (o : gmap string value).

Abbreviation dict := (gmap string value).

Global Instance value_eq_dec : EqDecision value.
Proof. solve_decision. Defined.

Global Instance field_eq_dec : EqDecision field.
Proof. solve_decision. Defined.

Definition value_code (v : value) : unit + (Qc + string) :=
  match v with
  | VNone => inl tt
  | VNum q => inr (inl q)
  | VStr s => inr (inr s)
  end.

Definition value_decode (c : unit + (Qc + string)) : value :=
  match c with
  | inl _ => VNone
  | inr (inl q) => VNum q
  | inr (inr s) => VStr s
  end.

Global Instance value_countable : Countable value.
Proof.
  apply (inj_countable' value_code value_decode).
  intros []; reflexivity.
Defined.

Definition QcZ (z : Z) : Qc := Q2Qc (inject_Z z).

(** An integer (or a bool) as a value. *)
Definition VInt (z : Z) : value := VNum (QcZ z).

(** ** Python primitives on values *)

Inductive exn :=
  | KeyError
  | TypeError
  | ValueError
  | SystemExit.

Global Instance exn_eq_dec : EqDecision exn.
Proof. solve_decision. Defined.

(** Truth value: [None], zero and the empty text are false. *)
Definition truthy (v : value) : bool :=
  match v with
  | VNone => false
  | VNum q => negb (bool_decide (q = QcZ 0))
  | VStr s => negb (bool_decide (s = ""%string))
  end.

(** Python 2 orders any two objects: [None] is below everything, numbers
    are below every other type and compare by value, texts compare
    lexicographically. *)
Definition py_cmp (a b : value) : comparison :=
  match a, b with
  | VNone, VNone => Eq
  | VNone, _ => Lt
  | _, VNone => Gt
  | VNum p, VNum q => Qccompare p q
  | VNum _, VStr _ => Lt
  | VStr _, VNum _ => Gt
  | VStr s, VStr t => String.compare s t
  end.

Definition py_lt (a b : value) : bool :=
  match py_cmp a b with Lt => true | _ => false end.

Definition py_gt (a b : value) : bool := py_lt b a.

Definition py_ge (a b : value) : bool := negb (py_lt a b).

Definition is_digit (c : ascii) : bool :=
  let n := nat_of_ascii c in (48 <=? n)%nat && (n <=? 57)%nat.

(** [str.isdigit]: non-empty and made of decimal digits. *)
Fixpoint all_digits (s : string) : bool :=
  match s with
  | EmptyString => true
  | String c r => is_digit c && all_digits r
  end.

Definition isdigit (s : string) : bool :=
  match s with
  | EmptyString => false
  | _ => all_digits s
  end.

Fixpoint digits_value (acc : Z) (s : string) : Z :=
  match s with
  | EmptyString => acc
  | String c r => digits_value (10 * acc + (Z.of_nat (nat_of_ascii c) - 48)) r
  end.

Definition is_space (c : ascii) : bool :=
  let n := nat_of_ascii c in (n =? 32)%nat || ((9 <=? n)%nat && (n <=? 13)%nat).

Fixpoint lstrip (s : string) : string :=
  match s with
  | String c r => if is_space c then lstrip r else s
  | EmptyString => s
  end.

Fixpoint rstrip (s : string) : string :=
  match s with
  | EmptyString => EmptyString
  | String c r =>
      match rstrip r with
      | EmptyString => if is_space c then EmptyString else String c EmptyString
      | r' => String c r'
      end
  end.

(** [int(text)]: surrounding white space, an optional sign, decimal
    digits; anything else is a [ValueError]. *)
Definition int_of_text (s : string) : option Z :=
  match rstrip (lstrip s) with
  | String "-"%char r => if isdigit r then Some (- digits_value 0 r) else None
  | String "+"%char r => if isdigit r then Some (digits_value 0 r) else None
  | r => if isdigit r then Some (digits_value 0 r) else None
  end.

(** [int(q)] on a number truncates towards zero. *)
Definition Qc_trunc (q : Qc) : Z := Z.quot (Qnum q) (Zpos (Qden q)).

Definition py_int (v : value) : exn + Z :=
  match v with
  | VNone => inl TypeError
  | VNum q => inr (Qc_trunc q)
  | VStr s => match int_of_text s with Some z => inr z | None => inl ValueError end
  end.

(** [v / MILLIS_PER_SECOND]: only numbers divide. *)
Definition MILLIS_PER_SECOND : Qc := QcZ 1000.

Definition div_millis (v : value) : exn + Qc :=
  match v with
  | VNum q => inr (q / MILLIS_PER_SECOND)%Qc
  | _ => inl TypeError
  end.

Fixpoint is_prefix (p s : string) : bool :=
  match p, s with
  | EmptyString, _ => true
  | String a p', String b s' => bool_decide (a = b) && is_prefix p' s'
  | String _ _, EmptyString => false
  end.

(** [p in s] on texts. *)
Fixpoint contains (p s : string) : bool :=
  is_prefix p s ||
  match s with
  | EmptyString => false
  | String _ s' => contains p s'
  end.

(** [xs.sort(key=..., reverse=True)]: a stable descending sort; records
    with equal keys keep their order. *)
Fixpoint insert_desc {A} (key : A -> value) (x : A) (l : list A) : list A :=
  match l with
  | [] => [x]
  | y :: r => if py_gt (key y) (key x) then y :: insert_desc key x r else x :: l
  end.

Definition sort_desc {A} (key : A -> value) (l : list A) : list A :=
  foldr (insert_desc key) [] l.

(** [d.get(k)], with [None] for an absent key. *)
Definition dget (k : string) (d : dict) : value := default VNone (d !! k).

(** [d[k]] *)
Definition dsub (k : string) (d : dict) : exn + value :=
  match d !! k with Some v => inr v | None => inl KeyError end.

(** ** The scheduler primitives: [throttle]

    [throttle(wait)] keeps two attributes on the function object
    [throttled]: the timer [t] and the time [executed] of the last run.
    An attribute that was never assigned is [None] here; reading it
    raises [AttributeError] in the source. *)

Record timer := {
  due : Qc;
  live : bool
}.

Record throttle_attrs := {
  thr_t : option timer;
  thr_executed : option Qc
}.

Definition throttle_init : throttle_attrs :=
  {| thr_t := None; thr_executed := None |}.

(** [call_it]: run [fn], then record the time.  The boolean tells
    whether [fn] ran. *)
Definition call_it (now : Qc) (a : throttle_attrs) : bool * throttle_attrs :=
  (true, {| thr_t := thr_t a; thr_executed := Some now |}).

Definition cancel (tm : timer) : timer := {| due := due tm; live := false |}.

(** One invocation of [throttled] at time [now]. *)
Definition throttled (wait now : Qc) (a : throttle_attrs) : bool * throttle_attrs :=
  match thr_t a with
  | None => call_it now a
  | Some tm =>
      let a1 := {| thr_t := Some (cancel tm); thr_executed := thr_executed a |} in
      match thr_executed a1 with
      | None => call_it now a1
      | Some ex =>
          if bool_decide (now < ex + wait)%Qc
          then (false, {| thr_t := Some {| due := (now + wait)%Qc; live := true |};
                          thr_executed := Some ex |})
          else (false, a1)
      end
  end.

(** The timer thread: a live timer whose delay has elapsed runs [call_it]. *)
Definition timer_fires (now : Qc) (a : throttle_attrs) : bool * throttle_attrs :=
  match thr_t a with
  | Some tm =>
      if live tm && bool_decide (due tm <= now)%Qc
      then call_it now {| thr_t := Some (cancel tm); thr_executed := thr_executed a |}
      else (false, a)
  | None => (false, a)
  end.

Inductive throttle_event :=
  | Invoke (now : Qc)
  | Tick (now : Qc).

Definition throttle_step (wait : Qc) (ev : throttle_event) (a : throttle_attrs)
  : bool * throttle_attrs :=
  match ev with
  | Invoke now => throttled wait now a
  | Tick now => timer_fires now a
  end.

Definition event_time (ev : throttle_event) : Qc :=
  match ev with Invoke now | Tick now => now end.

(** The times at which the wrapped action runs along a sequence of events. *)
Fixpoint throttle_run (wait : Qc) (evs : list throttle_event) (a : throttle_attrs)
  : list Qc :=
  match evs with
  | [] => []
  | ev :: rest =>
      let '(ran, a') := throttle_step wait ev a in
      (if ran then [event_time ev] else []) ++ throttle_run wait rest a'
  end.

(** ** The environment of an event *)

Record env := {
  time : Qc;                                  (* time() *)
  fromtimestamp_isoformat : Qc -> option string;  (* datetime.fromtimestamp(x).isoformat() *)
  float_of_text : string -> option Qc;        (* float(text), None on ValueError *)
  text_is_str : bool                          (* isinstance(text, str) for a decoded text *)
}.

Definition timestamp_hours_ago (e : env) (hours : Z) : Qc :=
  (time e - QcZ hours * QcZ 60 * QcZ 60 * MILLIS_PER_SECOND)%Qc.

(** ** State of the process *)

Record file := {
  content : list dict;
  mtime : Qc
}.

Abbreviation status := (gmap string field).

(** [io.emit('dbAdd', {"collection": ..., "data": ...})] *)
Inductive message :=
  | DbAddTreatment (data : dict)
  | DbAddStatus (data : status).

Abbreviation token := (value * Z)%type.

(** The call held by the timer of the debounced [ack_bolus_request]. *)
Record pending_call := {
  pc_token : token;
  pc_amount : value;
  pc_due : Qc
}.

Record state := {
  wait_count : Z;  (* the global wait_count *)
  websocket_entries : list dict;
  websocket_treatments : gmap (value * value) dict;  (* keyed by (eventType, timestamp) *)
  websocket_temp_targets : list dict;  (* the view last kept *)
  websocket_meal_carbs : list dict;  (* the view last kept *)
  pending_confirmations : gmap token value;
  ack_timer : option pending_call;  (* debounced.t of ack_bolus_request *)
  files : gmap string file;  (* the files on disk *)
  write_log : list string;  (* names of the files written, oldest first *)
  emitted : list message;  (* messages sent to the transport *)
  boluses : list value  (* amounts handed to the pump tool *)
}.

Definition init : state :=
  {| wait_count := 0;
     websocket_entries := [];
     websocket_treatments := ∅;
     websocket_temp_targets := [];
     websocket_meal_carbs := [];
     pending_confirmations := ∅;
     ack_timer := None;
     files := ∅;
     write_log := [];
     emitted := [];
     boluses := [] |}.

Definition set_wait_count (n : Z) (s : state) : state :=
  {| wait_count := n;
     websocket_entries := websocket_entries s;
     websocket_treatments := websocket_treatments s;
     websocket_temp_targets := websocket_temp_targets s;
     websocket_meal_carbs := websocket_meal_carbs s;
     pending_confirmations := pending_confirmations s;
     ack_timer := ack_timer s;
     files := files s;
     write_log := write_log s;
     emitted := emitted s;
     boluses := boluses s |}.

Definition set_entries (l : list dict) (s : state) : state :=
  {| wait_count := wait_count s;
     websocket_entries := l;
     websocket_treatments := websocket_treatments s;
     websocket_temp_targets := websocket_temp_targets s;
     websocket_meal_carbs := websocket_meal_carbs s;
     pending_confirmations := pending_confirmations s;
     ack_timer := ack_timer s;
     files := files s;
     write_log := write_log s;
     emitted := emitted s;
     boluses := boluses s |}.

Definition set_treatments (m : gmap (value * value) dict) (s : state) : state :=
  {| wait_count := wait_count s;
     websocket_entries := websocket_entries s;
     websocket_treatments := m;
     websocket_temp_targets := websocket_temp_targets s;
     websocket_meal_carbs := websocket_meal_carbs s;
     pending_confirmations := pending_confirmations s;
     ack_timer := ack_timer s;
     files := files s;
     write_log := write_log s;
     emitted := emitted s;
     boluses := boluses s |}.

Definition set_temp_targets (l : list dict) (s : state) : state :=
  {| wait_count := wait_count s;
     websocket_entries := websocket_entries s;
     websocket_treatments := websocket_treatments s;
     websocket_temp_targets := l;
     websocket_meal_carbs := websocket_meal_carbs s;
     pending_confirmations := pending_confirmations s;
     ack_timer := ack_timer s;
     files := files s;
     write_log := write_log s;
     emitted := emitted s;
     boluses := boluses s |}.

Definition set_meal_carbs (l : list dict) (s : state) : state :=
  {| wait_count := wait_count s;
     websocket_entries := websocket_entries s;
     websocket_treatments := websocket_treatments s;
     websocket_temp_targets := websocket_temp_targets s;
     websocket_meal_carbs := l;
     pending_confirmations := pending_confirmations s;
     ack_timer := ack_timer s;
     files := files s;
     write_log := write_log s;
     emitted := emitted s;
     boluses := boluses s |}.

Definition set_pending (p : gmap token value) (s : state) : state :=
  {| wait_count := wait_count s;
     websocket_entries := websocket_entries s;
     websocket_treatments := websocket_treatments s;
     websocket_temp_targets := websocket_temp_targets s;
     websocket_meal_carbs := websocket_meal_carbs s;
     pending_confirmations := p;
     ack_timer := ack_timer s;
     files := files s;
     write_log := write_log s;
     emitted := emitted s;
     boluses := boluses s |}.

Definition set_ack_timer (t : option pending_call) (s : state) : state :=
  {| wait_count := wait_count s;
     websocket_entries := websocket_entries s;
     websocket_treatments := websocket_treatments s;
     websocket_temp_targets := websocket_temp_targets s;
     websocket_meal_carbs := websocket_meal_carbs s;
     pending_confirmations := pending_confirmations s;
     ack_timer := t;
     files := files s;
     write_log := write_log s;
     emitted := emitted s;
     boluses := boluses s |}.

Definition set_files (f : gmap string file) (s : state) : state :=
  {| wait_count := wait_count s;
     websocket_entries := websocket_entries s;
     websocket_treatments := websocket_treatments s;
     websocket_temp_targets := websocket_temp_targets s;
     websocket_meal_carbs := websocket_meal_carbs s;
     pending_confirmations := pending_confirmations s;
     ack_timer := ack_timer s;
     files := f;
     write_log := write_log s;
     emitted := emitted s;
     boluses := boluses s |}.

Definition set_write_log (l : list string) (s : state) : state :=
  {| wait_count := wait_count s;
     websocket_entries := websocket_entries s;
     websocket_treatments := websocket_treatments s;
     websocket_temp_targets := websocket_temp_targets s;
     websocket_meal_carbs := websocket_meal_carbs s;
     pending_confirmations := pending_confirmations s;
     ack_timer := ack_timer s;
     files := files s;
     write_log := l;
     emitted := emitted s;
     boluses := boluses s |}.

Definition set_emitted (l : list message) (s : state) : state :=
  {| wait_count := wait_count s;
     websocket_entries := websocket_entries s;
     websocket_treatments := websocket_treatments s;
     websocket_temp_targets := websocket_temp_targets s;
     websocket_meal_carbs := websocket_meal_carbs s;
     pending_confirmations := pending_confirmations s;
     ack_timer := ack_timer s;
     files := files s;
     write_log := write_log s;
     emitted := l;
     boluses := boluses s |}.

Definition set_boluses (l : list value) (s : state) : state :=
  {| wait_count := wait_count s;
     websocket_entries := websocket_entries s;
     websocket_treatments := websocket_treatments s;
     websocket_temp_targets := websocket_temp_targets s;
     websocket_meal_carbs := websocket_meal_carbs s;
     pending_confirmations := pending_confirmations s;
     ack_timer := ack_timer s;
     files := files s;
     write_log := write_log s;
     emitted := emitted s;
     boluses := l |}.

(** ** The monad of handlers: state and exceptions *)

Definition M (A : Type) : Type := state -> (exn + A) * state.

Definition ret {A} (a : A) : M A := fun s => (inr a, s).

Definition bind {A B} (m : M A) (k : A -> M B) : M B :=
  fun s => match m s with
           | (inr a, s') => k a s'
           | (inl e, s') => (inl e, s')
           end.

Definition raise {A} (e : exn) : M A := fun s => (inl e, s).

Definition lift {A} (r : exn + A) : M A := fun s => (r, s).

Definition gets {A} (f : state -> A) : M A := fun s => (inr (f s), s).

Definition modify (f : state -> state) : M unit := fun s => (inr tt, f s).

Global Instance M_ret : MRet M := @ret.

Global Instance M_bind : MBind M := fun A B k m => bind m k.

(** [for x in xs: body] *)
Fixpoint for_each {A} (xs : list A) (body : A -> M unit) : M unit :=
  match xs with
  | [] => ret tt
  | x :: rest => body x;; for_each rest body
  end.

(** [try: m except KeyError: pass] *)
Definition except_KeyError (m : M unit) : M unit :=
  fun s => match m s with
           | (inl KeyError, s') => (inr tt, s')
           | r => r
           end.

(** [try: m except Exception: ... sys.exit()] *)
Definition except_exit (m : M unit) : M unit :=
  fun s => match m s with
           | (inl _, s') => (inl SystemExit, s')
           | r => r
           end.

(** ** Persistence: [write_glucose_json], [write_treatment_json] *)

(** [open(name, 'w')], [write], [utime]. *)
Definition write_file (name : string) (l : list dict) (t : Qc) (s : state) : state :=
  set_write_log (write_log s ++ [name])
    (set_files (<[name := {| content := l; mtime := t |}]> (files s)) s).

(** The [print] of the time stamp formats it, which can fail. *)
Definition isoformat (e : env) (t : Qc) : exn + string :=
  match fromtimestamp_isoformat e t with
  | Some txt => inr txt
  | None => inl ValueError
  end.

Definition write_glucose_json (e : env) (entries : list dict) : M unit :=
  match entries with
  | [] => ret tt
  | newest :: _ =>
      d ← lift (dsub "date" newest);
      latest_time ← lift (div_millis d);
      modify (write_file "monitor/glucose.json" entries latest_time);;
      _ ← lift (isoformat e latest_time);
      ret tt
  end.

Definition write_treatment_json (e : env) (filename : string) (treatments : list dict)
  : M unit :=
  match treatments with
  | [] => ret tt
  | newest :: _ =>
      d ← lift (dsub "mills" newest);
      latest_time ← lift (div_millis d);
      modify (write_file filename treatments latest_time);;
      _ ← lift (isoformat e latest_time);
      ret tt
  end.

(** ** Glucose: [handle_sgvs] *)

Record update := {
  u_devicestatus : option (list status);
  u_sgvs : option (list dict);
  u_treatments : option (list dict)
}.

Definition normalize (entry : dict) (date_string : string) : dict :=
  list_to_map
    [ ("direction", dget "direction" entry);
      ("date", dget "mills" entry);
      ("dateString", VStr (date_string +:+ "-0500"));
      ("sgv", dget "mgdl" entry);
      ("device", dget "device" entry);
      ("rssi", dget "rssi" entry);
      ("filtered", dget "filtered" entry);
      ("unfiltered", dget "unfiltered" entry);
      ("noise", dget "noise" entry);
      ("type", VStr "sgv");
      ("glucose", dget "mgdl" entry) ].

Definition append_entry (e : env) (entry : dict) : M unit :=
  m ← lift (dsub "mills" entry);
  secs ← lift (div_millis m);
  txt ← lift (isoformat e secs);
  modify (fun s => set_entries (websocket_entries s ++ [normalize entry txt]) s).

Definition glucose_window (timestamp_1d : Qc) (entries : list dict) : list dict :=
  sort_desc (dget "date")
    (filter (fun entry => py_gt (dget "date" entry) (VNum timestamp_1d) = true) entries).

Definition handle_sgvs (e : env) (data : update) (timestamp_1d : Qc) : M unit :=
  for_each (default [] (u_sgvs data)) (append_entry e);;
  entries ← gets websocket_entries;
  write_glucose_json e (glucose_window timestamp_1d entries).

(** ** Derived views: [handle_meal_carbs], [handle_temp_targets] *)

Definition store_values (s : state) : list dict :=
  (map_to_list (websocket_treatments s)).*2.

Definition is_meal (e : env) (treatment : dict) : bool :=
  (truthy (dget "carbs" treatment) || truthy (dget "insulin" treatment))
  && py_ge (dget "mills" treatment) (VNum (timestamp_hours_ago e 24)).

Definition meal_carbs_view (e : env) (s : state) : list dict :=
  sort_desc (dget "mills") (filter (fun t => is_meal e t = true) (store_values s)).

Definition handle_meal_carbs (e : env) : M unit :=
  new_websocket_meal_carbs ← gets (meal_carbs_view e);
  old ← gets websocket_meal_carbs;
  if bool_decide (old ≠ new_websocket_meal_carbs) then
    modify (set_meal_carbs new_websocket_meal_carbs);;
    write_treatment_json e "monitor/carbhistory.json" new_websocket_meal_carbs
  else ret tt.

(** ['Target' in treatment.get('eventType', '') and mills >= ...]: the
    membership test needs a text. *)
Definition is_temp_target (e : env) (treatment : dict) : exn + bool :=
  match default (VStr "") (treatment !! "eventType") with
  | VStr s =>
      inr (contains "Target" s
           && py_ge (dget "mills" treatment) (VNum (timestamp_hours_ago e 6)))
  | _ => inl TypeError
  end.

(** A list comprehension whose condition can raise. *)
Fixpoint select {A} (p : A -> exn + bool) (l : list A) : exn + list A :=
  match l with
  | [] => inr []
  | x :: rest =>
      match p x with
      | inl ex => inl ex
      | inr b =>
          match select p rest with
          | inl ex => inl ex
          | inr r => inr (if b then x :: r else r)
          end
      end
  end.

Definition temp_targets_view (e : env) (s : state) : exn + list dict :=
  match select (is_temp_target e) (store_values s) with
  | inl ex => inl ex
  | inr l => inr (sort_desc (dget "mills") l)
  end.

Definition handle_temp_targets (e : env) : M unit :=
  s ← gets id;
  new_websocket_temp_targets ← lift (temp_targets_view e s);
  if bool_decide (new_websocket_temp_targets ≠ websocket_temp_targets s) then
    modify (set_temp_targets new_websocket_temp_targets);;
    write_treatment_json e "settings/temptargets.json" new_websocket_temp_targets
  else ret tt.

(** ** Cloud treatments: [handle_treatments] *)

(** [treatment.get('timestamp', treatment.get('created_at', None))] *)
Definition timestamp_of (treatment : dict) : value :=
  match treatment !! "timestamp" with
  | Some v => v
  | None => dget "created_at" treatment
  end.

(** [removed_treatment['_id'] == treatment['_id']] *)
Definition same_id (treatment removed_treatment : dict) : exn + bool :=
  match dsub "_id" removed_treatment with
  | inl ex => inl ex
  | inr a =>
      match dsub "_id" treatment with
      | inl ex => inl ex
      | inr b => inr (bool_decide (a = b))
      end
  end.

(** [del self.websocket_treatments[key]] *)
Definition del_treatment (key : value * value) : M unit :=
  store ← gets websocket_treatments;
  match store !! key with
  | Some _ => modify (set_treatments (delete key store))
  | None => raise KeyError
  end.

Definition is_remove (treatment : dict) : bool :=
  truthy (dget "action" treatment)
  && bool_decide (treatment !! "action" = Some (VStr "remove")).

Definition handle_treatment (treatment : dict) : M unit :=
  if is_remove treatment then
    s ← gets id;
    removed_treatments ← lift (select (same_id treatment) (store_values s));
    for_each removed_treatments (fun removed_treatment =>
      except_KeyError (
        event_type ← lift (dsub "eventType" removed_treatment);
        del_treatment (event_type, timestamp_of treatment)))
  else
    event_type ← lift (dsub "eventType" treatment);
    modify (fun s =>
      set_treatments
        (<[(event_type, timestamp_of treatment) := treatment]> (websocket_treatments s)) s).

Definition handle_treatments (e : env) (data : update) : M unit :=
  for_each (default [] (u_treatments data)) handle_treatment;;
  handle_temp_targets e;;
  handle_meal_carbs e.

(** ** The bolus handshake *)

Definition my_id : value := VStr "openaps://apstwo".

(** [perform_bolus]: the table is emptied, then the amount is formatted
    with ['%3.2f'] (a number is required) and handed to the pump tool. *)
Definition perform_bolus (amount : value) : M unit :=
  modify (set_pending ∅);;
  match amount with
  | VNum _ => modify (fun s => set_boluses (boluses s ++ [amount]) s)
  | _ => raise TypeError
  end.

Definition bolusack (tok : token) (amount : value) : status :=
  list_to_map
    [ ("device", Atom my_id);
      ("bolusack",
       Obj (list_to_map
              [ ("units", amount);
                ("target", my_id);
                ("initiator", tok.1);
                ("confirmation", VInt tok.2) ])) ].

(** The body of [ack_bolus_request], which runs when its timer fires. *)
Definition ack_bolus_request_body (tok : token) (amount : value) : M unit :=
  modify (set_pending {[ tok := amount ]});;
  modify (fun s => set_emitted (emitted s ++ [DbAddStatus (bolusack tok amount)]) s).

(** A call of the debounced [ack_bolus_request]: the timer of an earlier
    call is cancelled and a new one of one second is started. *)
Definition ack_bolus_request (e : env) (tok : token) (amount : value) : M unit :=
  modify (set_ack_timer
            (Some {| pc_token := tok; pc_amount := amount;
                     pc_due := (time e + QcZ 1)%Qc |})).

(** The timer thread of the debounce. *)
Definition ack_timer_fires (e : env) : M unit :=
  t ← gets ack_timer;
  match t with
  | Some c =>
      if bool_decide (pc_due c <= time e)%Qc then
        modify (set_ack_timer None);;
        ack_bolus_request_body (pc_token c) (pc_amount c)
      else ret tt
  | None => ret tt
  end.

Definition as_obj (f : field) : exn + dict :=
  match f with
  | Obj o => inr o
  | Atom _ => inl TypeError
  end.

(** A dictionary is not hashable and cannot be part of a key. *)
Definition hashable (f : field) : exn + value :=
  match f with
  | Atom v => inr v
  | Obj _ => inl TypeError
  end.

Definition fsub (k : string) (st : status) : exn + field :=
  match st !! k with Some f => inr f | None => inl KeyError end.

(** The body of the loop of [handle_devicestatus]. *)
Definition handle_status (e : env) (st : status) : M unit :=
  match st !! "bolus" with
  | None => ret tt
  | Some b =>
      bolus ← lift (as_obj b);
      bolus_amount ← lift (dsub "units" bolus);
      target_device_id ← lift (dsub "target" bolus);
      if bool_decide (target_device_id ≠ my_id) then ret tt
      else
        device ← lift (fsub "device" st);
        confirmation ← lift (py_int (default (VInt 0) (bolus !! "confirmation")));
        requesting_device_id ← lift (hashable device);
        pending ← gets pending_confirmations;
        if bool_decide (default VNone (pending !! (requesting_device_id, confirmation))
                        = bolus_amount)
        then
          match pending !! (requesting_device_id, confirmation) with
          | Some _ =>
              modify (set_pending (delete (requesting_device_id, confirmation) pending));;
              perform_bolus bolus_amount
          | None => raise KeyError
          end
        else
          ack_bolus_request e (requesting_device_id, Qc_trunc (time e)) bolus_amount
  end.

Definition handle_devicestatus (e : env) (data : update) : M unit :=
  for_each (default [] (u_devicestatus data)) (handle_status e).

(** ** Inbound events: [on_dataUpdate] and the other notifications *)

Definition when {A} (o : option A) (m : M unit) : M unit :=
  match o with Some _ => m | None => ret tt end.

Definition on_dataUpdate (e : env) (data : update) : M unit :=
  except_exit (
    modify (set_wait_count 0);;
    let timestamp_1d := timestamp_hours_ago e 24 in
    when (u_devicestatus data) (handle_devicestatus e data);;
    when (u_sgvs data) (handle_sgvs e data timestamp_1d);;
    when (u_treatments data) (handle_treatments e data)).

Definition on_error : M unit := raise SystemExit.

Definition on_close : M unit := raise SystemExit.

Definition on_disconnect : M unit :=
  modify (fun s => set_wait_count (wait_count s + 8) s);;
  raise SystemExit.

Inductive notification :=
  | DataUpdate (e : env) (data : update)
  | Disconnect
  | Error
  | Close.

Definition dispatch (n : notification) : M unit :=
  match n with
  | DataUpdate e data => on_dataUpdate e data
  | Disconnect => on_disconnect
  | Error => on_error
  | Close => on_close
  end.

(** ** The session loop: [main]

    A cycle is what one [socketIO.wait(60)] dispatches.  The loop ends
    when the counter reaches 7 ([TimedOut]), when a handler exits the
    process ([Exited]), or is still waiting when the given cycles are
    used up ([Waiting]). *)

Inductive outcome :=
  | Waiting (s : state)
  | TimedOut (s : state)
  | Exited (s : state).

Fixpoint main (cycles : list (list notification)) (s : state) : outcome :=
  if bool_decide (wait_count s < 7) then
    match cycles with
    | [] => Waiting s
    | c :: rest =>
        match for_each c dispatch s with
        | (inl _, s') => Exited s'
        | (inr _, s') => main rest (set_wait_count (wait_count s' + 1) s')
        end
    end
  else TimedOut s.

(** ** Local treatments: [invoke_reconcile_treatments] *)

(** The coercion of the text fields of a record.  Whether a text that
    [json.loads] decoded is an instance of [str] depends on the
    interpreter: it is not under Python 2, where such a text is a
    [unicode] and the loop then changes nothing. *)
Definition coerce (e : env) (v : value) : value :=
  match v with
  | VStr s =>
      if text_is_str e then
        if isdigit s then VInt (digits_value 0 s)
        else match float_of_text e s with
             | Some q => VNum q
             | None => v
             end
      else v
  | _ => v
  end.

Definition coerce_duration (treatment : dict) : exn + dict :=
  match dget "duration" treatment with
  | VNone => inr treatment
  | d =>
      match py_int d with
      | inl ex => inl ex
      | inr z => inr (<["duration" := VInt z]> treatment)
      end
  end.

Definition reconcile_treatment (e : env) (treatment : dict) : M unit :=
  event_type ← lift (dsub "eventType" treatment);
  timestamp ← lift (dsub "timestamp" treatment);
  treatment_map ← gets websocket_treatments;
  match treatment_map !! (event_type, timestamp) with
  | Some _ => ret tt
  | None =>
      coerced ← lift (coerce_duration (coerce e <$> treatment));
      modify (fun s => set_emitted (emitted s ++ [DbAddTreatment coerced]) s)
  end.

(** The body of the debounced action, given the parsed output
    [treatments_json] of the formatting tool. *)
Definition invoke_reconcile_treatments (e : env) (treatments_json : list dict) : M unit :=
  for_each treatments_json (reconcile_treatment e).

(** ** Sample inputs *)

(** The times of the invocations in a sequence of events of a throttle. *)
Fixpoint invocations (evs : list throttle_event) : list Qc :=
  match evs with
  | [] => []
  | Invoke now :: rest => now :: invocations rest
  | Tick _ :: rest => invocations rest
  end.

(** A platform whose clock reads [now] seconds. *)
Definition sample_env (now : Z) : env :=
  {| time := QcZ now;
     fromtimestamp_isoformat := fun _ => Some "2017-01-01T00:00:00"%string;
     float_of_text := fun _ => None;
     text_is_str := false |}.

(** An inbound event that carries none of the three batches. *)
Definition no_data : update :=
  {| u_devicestatus := None; u_sgvs := None; u_treatments := None |}.

(** A cloud treatment, pushed at clock reading 1700000100 s. *)
Definition carb_correction : dict :=
  list_to_map
    [ ("eventType", VStr "Carb Correction"); ("timestamp", VInt 1000);
      ("carbs", VInt 20); ("_id", VStr "abc"); ("mills", VInt 1700000000000) ].

Definition cloud_batch (l : list dict) : update :=
  {| u_devicestatus := None; u_sgvs := None; u_treatments := Some l |}.

Definition sgv_batch (l : list dict) : update :=
  {| u_devicestatus := None; u_sgvs := Some l; u_treatments := None |}.

Definition status_batch (l : list status) : update :=
  {| u_devicestatus := Some l; u_sgvs := None; u_treatments := None |}.

(** The store holds [carb_correction]; no view has been computed yet. *)
Definition carb_stored : state :=
  set_treatments {[ (VStr "Carb Correction", VInt 1000) := carb_correction ]} init.

(** The state once the cloud has pushed [carb_correction]. *)
Definition carb_ingested : state :=
  (on_dataUpdate (sample_env 1700000100) (cloud_batch [carb_correction]) init).2.

(** Remove records for the id of [carb_correction]: one with nothing but
    the id, one with another time stamp. *)
Definition remove_abc : dict :=
  list_to_map [ ("_id", VStr "abc"); ("action", VStr "remove") ].

Definition remove_abc_2000 : dict :=
  list_to_map
    [ ("_id", VStr "abc"); ("action", VStr "remove");
      ("eventType", VStr "Carb Correction"); ("timestamp", VInt 2000) ].

(** A record of the formatting tool. *)
Definition local_carbs : dict :=
  list_to_map
    [ ("eventType", VStr "Carb Correction");
      ("timestamp", VStr "2017-01-01T12:00:00-05:00");
      ("carbs", VInt 20) ].

(** A bolus request for this device. *)
Definition bolus_request (device : string) (confirmation : Z) (units : Z) : status :=
  list_to_map
    [ ("device", Atom (VStr device));
      ("bolus",
       Obj (list_to_map
              [ ("units", VInt units); ("target", my_id);
                ("confirmation", VInt confirmation) ])) ].

(** The table holds a request of 2 units by "phone" under nonce 5. *)
Definition awaiting_confirm : state :=
  set_pending {[ (VStr "phone", 5) := VInt 2 ]} init.

(** Raw glucose readings: a complete one, and one without [mills]. *)
Definition sgv (mills mgdl : Z) : dict :=
  list_to_map
    [ ("mills", VInt mills); ("mgdl", VInt mgdl); ("direction", VStr "Flat");
      ("device", VStr "share2") ].

Definition sgv_without_mills : dict :=
  list_to_map [ ("mgdl", VInt 120); ("direction", VStr "Flat") ].


(** ** Notions used by the statements *)


Definition has_number (k : string) (d : dict) : Prop :=
  exists q, d !! k = Some (VNum q).

(** A reading taken at [date] (milliseconds) is within the last 24 hours
    of the clock reading [now] (seconds). *)
Definition within_24_hours (now : Qc) (date : Qc) : Prop :=
  (now * QcZ 1000 - QcZ 24 * QcZ 3600 * QcZ 1000 < date)%Qc.

(** ** The scheduler primitives: [debounce]

    [debounce(wait)] keeps one attribute on the function object
    [debounced]: the timer [t] of the latest call, with the arguments of
    that call.  [None] stands for the attribute not assigned yet. *)

Record debounce_timer (A : Type) := {
  d_due : Qc;
  d_args : A;
  d_live : bool
}.
Arguments d_due {A} _.
Arguments d_args {A} _.
Arguments d_live {A} _.

(** One invocation of [debounced] at time [now]: the timer of the
    earlier call, if any, is cancelled and dropped, a new timer is
    started. *)
Definition debounced {A} (wait now : Qc) (args : A) (t : option (debounce_timer A))
  : option (debounce_timer A) :=
  Some {| d_due := (now + wait)%Qc; d_args := args; d_live := true |}.

(** The timer thread: a timer that is live when its delay has elapsed
    calls [fn] with the arguments it holds, once. *)
Definition debounce_fires {A} (now : Qc) (t : option (debounce_timer A))
  : option A * option (debounce_timer A) :=
  match t with
  | Some tm =>
      if d_live tm && bool_decide (d_due tm <= now)%Qc
      then (Some (d_args tm),
            Some {| d_due := d_due tm; d_args := d_args tm; d_live := false |})
      else (None, t)
  | None => (None, t)
  end.

Inductive debounce_event (A : Type) :=
  | DCall (now : Qc) (args : A)
  | DTick (now : Qc).
Arguments DCall {A} _ _.
Arguments DTick {A} _.

Definition debounce_step {A} (wait : Qc) (ev : debounce_event A)
  (t : option (debounce_timer A)) : option A * option (debounce_timer A) :=
  match ev with
  | DCall now args => (None, debounced wait now args t)
  | DTick now => debounce_fires now t
  end.

(** The attribute after a sequence of events. *)
Definition debounce_state {A} (wait : Qc) (evs : list (debounce_event A))
  (t : option (debounce_timer A)) : option (debounce_timer A) :=
  foldl (fun t ev => (debounce_step wait ev t).2) t evs.

(** The executions of the wrapped function along a sequence of events:
    the time of the tick and the arguments. *)
Fixpoint debounce_run {A} (wait : Qc) (evs : list (debounce_event A))
  (t : option (debounce_timer A)) : list (Qc * A) :=
  match evs with
  | [] => []
  | ev :: rest =>
      match debounce_step wait ev t with
      | (Some args, t') =>
          (match ev with DCall now _ | DTick now => now end, args)
          :: debounce_run wait rest t'
      | (None, t') => debounce_run wait rest t'
      end
  end.

(** The latest invocation in a sequence of events. *)
Definition last_call {A} (evs : list (debounce_event A)) : option (Qc * A) :=
  foldl (fun o ev => match ev with DCall now args => Some (now, args) | DTick _ => o end)
    None evs.

Definition is_call {A} (ev : debounce_event A) : bool :=
  match ev with DCall _ _ => true | DTick _ => false end.

(** ** The file-change router: [on_modified]

    The wrapped actions that one notification invokes, in order. *)

Inductive trigger :=
  | InvokeMealJson
  | InvokeSettingsProfileJson
  | InvokeNsStatus
  | InvokeReconcileTreatments.

Global Instance trigger_eq_dec : EqDecision trigger.
Proof. solve_decision. Defined.

Definition meal_paths : list string :=
  [ "./settings/profile.json"; "./monitor/carbhistory.json";
    "./monitor/clock-zoned.json"; "./monitor/pumphistory-zoned.json";
    "./settings/basal_profile.json"; "./monitor/glucose.json" ]%string.

Definition settings_paths : list string :=
  [ "./settings/bg_targets.json"; "./preferences.json"; "./settings/settings.json";
    "./settings/basal_profile.json"; "./settings/carb_ratios.json";
    "./settings/temptargets.json"; "./settings/model.json";
    "./settings/autotune.json"; "./settings/insulin_sensitivities.json" ]%string.

Definition status_paths : list string :=
  [ "./monitor/clock-zoned.json"; "./monitor/iob.json"; "./enact/suggested.json";
    "./enact/enacted.json"; "./monitor/battery.json"; "./monitor/reservoir.json";
    "./monitor/status.json" ]%string.

Definition on_modified (src_path event_type : string) : list trigger :=
  if bool_decide (src_path = "./.git"%string) then []
  else if bool_decide (event_type = "modified"%string) then
    (if bool_decide (src_path ∈ meal_paths) then [InvokeMealJson] else [])
    ++ (if bool_decide (src_path ∈ settings_paths) then [InvokeSettingsProfileJson] else [])
    ++ (if bool_decide (src_path ∈ status_paths) then [InvokeNsStatus] else [])
    ++ (if bool_decide (src_path = "./monitor/pumphistory-zoned.json"%string)
        then [InvokeReconcileTreatments] else [])
  else [].

(** The files that the handlers of cloud events write, as the observer
    of the working directory names them. *)
Definition written_files : list string :=
  [ "monitor/glucose.json"; "settings/temptargets.json";
    "monitor/carbhistory.json" ]%string.

Definition observed (name : string) : string := ("./" +:+ name)%string.

(** ** Further notions used by the statements *)

(** The key under which [handle_treatments] stores a treatment. *)
Definition derived_key (treatment : dict) : value * value :=
  (dget "eventType" treatment, timestamp_of treatment).

(** The store after the upserts of a batch without remove records. *)
Definition upserts (batch : list dict) (m : gmap (value * value) dict)
  : gmap (value * value) dict :=
  foldl (fun m t => <[derived_key t := t]> m) m batch.

(** Every treatment of the store sits under the key derived from it. *)
Definition keyed (s : state) : Prop :=
  forall k t, websocket_treatments s !! k = Some t ->
              k = derived_key t /\ is_Some (t !! "eventType").

(** The loop body of a removal: the deletion attempted for one stored
    treatment whose id matched, under the time stamp of the remove
    record. *)
Definition remove_one (treatment removed_treatment : dict) : M unit :=
  except_KeyError (
    event_type ← lift (dsub "eventType" removed_treatment);
    del_treatment (event_type, timestamp_of treatment)).

(** [m] keeps [P]: what holds before holds after, also when [m] raises. *)
Definition keeps {A} (P : state -> Prop) (m : M A) : Prop :=
  forall s, P s -> P (m s).2.

(** ** Frame lemmas: what a handler leaves alone *)

Definition preserves {A B} (f : state -> A) (m : M B) : Prop :=
  forall s, f (m s).2 = f s.

Lemma preserves_ret {A B} (f : state -> A) (b : B) : preserves f (mret b).
Proof. intros s. reflexivity. Qed.

Lemma preserves_raise {A B} (f : state -> A) (ex : exn) : preserves f (@raise B ex).
Proof. intros s. reflexivity. Qed.

Lemma preserves_lift {A B} (f : state -> A) (r : exn + B) : preserves f (lift r).
Proof. intros s. reflexivity. Qed.

Lemma preserves_gets {A B} (f : state -> A) (g : state -> B) : preserves f (gets g).
Proof. intros s. reflexivity. Qed.

Lemma preserves_modify {A} (f : state -> A) (g : state -> state) :
  (forall s, f (g s) = f s) -> preserves f (modify g).
Proof. intros H s. apply H. Qed.

Lemma preserves_bind {A B C} (f : state -> A) (m : M B) (k : B -> M C) :
  preserves f m -> (forall b, preserves f (k b)) -> preserves f (m ≫= k).
Proof.
  intros Hm Hk s. unfold mbind, M_bind, bind.
  specialize (Hm s). destruct (m s) as [[ex|b] s1]; simpl in *.
  - exact Hm.
  - rewrite Hk. exact Hm.
Qed.

Lemma preserves_for_each {A B} (f : state -> A) (xs : list B) (body : B -> M unit) :
  (forall x, preserves f (body x)) -> preserves f (for_each xs body).
Proof.
  intros Hb. induction xs as [|x xs IH]; simpl.
  - apply preserves_ret.
  - apply preserves_bind; [apply Hb | intros _; exact IH].
Qed.

Lemma preserves_except_KeyError {A} (f : state -> A) (m : M unit) :
  preserves f m -> preserves f (except_KeyError m).
Proof.
  intros Hm s. unfold except_KeyError. specialize (Hm s).
  destruct (m s) as [[[]|[]] s1]; exact Hm.
Qed.

Lemma preserves_except_exit {A} (f : state -> A) (m : M unit) :
  preserves f m -> preserves f (except_exit m).
Proof.
  intros Hm s. unfold except_exit. specialize (Hm s).
  destruct (m s) as [[ex|[]] s1]; exact Hm.
Qed.

Lemma preserves_when {A B} (f : state -> A) (o : option B) (m : M unit) :
  preserves f m -> preserves f (when o m).
Proof. intros Hm. destruct o; [exact Hm | apply preserves_ret]. Qed.

Ltac frame_step :=
  match goal with
  | |- preserves _ (_ ≫= _) => apply preserves_bind; [| intros ?]
  | |- preserves _ (mret _) => apply preserves_ret
  | |- preserves _ (ret _) => apply (preserves_ret _ _)
  | |- preserves _ (raise _) => apply preserves_raise
  | |- preserves _ (lift _) => apply preserves_lift
  | |- preserves _ (gets _) => apply preserves_gets
  | |- preserves _ (modify _) => apply preserves_modify; intros ?; reflexivity
  | |- preserves _ (for_each _ _) => apply preserves_for_each; intros ?
  | |- preserves _ (except_KeyError _) => apply preserves_except_KeyError
  | |- preserves _ (except_exit _) => apply preserves_except_exit
  | |- preserves _ (when _ _) => apply preserves_when
  | |- preserves _ (match ?x with _ => _ end) => destruct x
  | |- preserves _ (if ?x then _ else _) => destruct x
  end.


Ltac frame_unfold :=
  progress unfold handle_devicestatus, handle_status, perform_bolus,
    ack_bolus_request, ack_bolus_request_body, ack_timer_fires,
    handle_sgvs, append_entry, write_glucose_json,
    handle_treatments, handle_treatment, del_treatment,
    handle_temp_targets, handle_meal_carbs, write_treatment_json,
    invoke_reconcile_treatments, reconcile_treatment.

Ltac frame := repeat first [frame_step | frame_unfold].

Lemma handle_devicestatus_wait_count e data :
  preserves wait_count (handle_devicestatus e data).
Proof. frame. Qed.

Lemma handle_sgvs_wait_count e data t : preserves wait_count (handle_sgvs e data t).
Proof. frame. Qed.

Lemma handle_treatments_wait_count e data :
  preserves wait_count (handle_treatments e data).
Proof. frame. Qed.

(** Whatever the event holds, and whether or not its processing fails,
    [on_dataUpdate] leaves the counter at zero. *)
Lemma on_dataUpdate_wait_count e data s : wait_count (on_dataUpdate e data s).2 = 0.
Proof.
  set (rest := (when (u_devicestatus data) (handle_devicestatus e data);;
                when (u_sgvs data) (handle_sgvs e data (timestamp_hours_ago e 24));;
                when (u_treatments data) (handle_treatments e data)) : M unit).
  assert (H : preserves wait_count rest).
  { apply preserves_bind; [apply preserves_when, handle_devicestatus_wait_count |].
    intros _. apply preserves_bind; [apply preserves_when, handle_sgvs_wait_count |].
    intros _. apply preserves_when, handle_treatments_wait_count. }
  specialize (H (set_wait_count 0 s)).
  change (on_dataUpdate e data s)
    with (except_exit (modify (set_wait_count 0);; rest) s).
  unfold except_exit.
  change ((modify (set_wait_count 0);; rest) s) with (rest (set_wait_count 0 s)).
  destruct (rest (set_wait_count 0 s)) as [[ex|[]] s1]; exact H.
Qed.

(** ** The throttle *)

Lemma throttle_run_unarmed wait evs ex :
  throttle_run wait evs {| thr_t := None; thr_executed := ex |} = invocations evs.
Proof.
  revert ex. induction evs as [|[now|now] evs IH]; intros ex; simpl.
  - reflexivity.
  - rewrite IH. reflexivity.
  - apply IH.
Qed.

(** C3: the wrapped action does not run at most once per interval.  From
    a cold start the attribute [t] is never assigned, so every invocation
    takes the [AttributeError] branch and runs the action at once: the
    action runs at exactly the times it is invoked.  Two invocations one
    second apart under a wait of 15 seconds both run. *)
Theorem throttle_runs_at_every_invocation :
  (forall wait evs, throttle_run wait evs throttle_init = invocations evs)
  /\ throttle_run (QcZ 15) [Invoke (QcZ 0); Invoke (QcZ 1)] throttle_init
     = [QcZ 0; QcZ 1].
Proof.
  split.
  - intros wait evs. apply throttle_run_unarmed.
  - reflexivity.
Qed.

(** ** The liveness counter *)

Lemma main_cons c rest s :
  wait_count s < 7 ->
  main (c :: rest) s =
  match for_each c dispatch s with
  | (inl _, s') => Exited s'
  | (inr _, s') => main rest (set_wait_count (wait_count s' + 1) s')
  end.
Proof. intros H. simpl. rewrite bool_decide_eq_true_2 by exact H. reflexivity. Qed.

Lemma main_timed_out cycles s : 7 <= wait_count s -> main cycles s = TimedOut s.
Proof.
  intros H. destruct cycles; simpl; rewrite bool_decide_eq_false_2 by lia; reflexivity.
Qed.

Lemma main_idle n : forall s,
  wait_count s < 7 ->
  (wait_count s + Z.of_nat n < 7 ->
   exists s', main (replicate n []) s = Waiting s'
              /\ wait_count s' = wait_count s + Z.of_nat n)
  /\ (wait_count s + Z.of_nat n = 7 ->
      exists s', main (replicate n []) s = TimedOut s' /\ wait_count s' = 7).
Proof.
  induction n as [|n IH]; intros s Hs.
  - split; intros H.
    + exists s. simpl. rewrite bool_decide_eq_true_2 by exact Hs. split; [reflexivity | lia].
    + lia.
  - set (s1 := set_wait_count (wait_count s + 1) s).
    assert (E0 : main (replicate (S n) []) s = main (replicate n []) s1).
    { change (replicate (S n) []) with (@nil notification :: replicate n []).
      rewrite main_cons by exact Hs. reflexivity. }
    assert (H1 : wait_count s1 = wait_count s + 1) by reflexivity.
    destruct (decide (wait_count s1 < 7)) as [Hlt|Hge].
    + destruct (IH s1 Hlt) as [IHw IHt]. split; intros H.
      * destruct IHw as (s' & E & W); [lia |]. exists s'.
        split; [rewrite E0; exact E | lia].
      * destruct IHt as (s' & E & W); [lia |]. exists s'.
        split; [rewrite E0; exact E | exact W].
    + split; intros H; [lia |].
      exists s1. rewrite E0, main_timed_out by lia. split; [reflexivity | lia].
Qed.

(** C7, as amended: from a counter of 0, seven idle cycles end the
    session and fewer do not; an inbound event in the third cycle sets the
    counter to 0, the loop then adds 1 at the end of that same cycle, so
    six further idle cycles end the session and fewer do not. *)
Theorem liveness_counter_scenario (e : env) (data : update) (s3 : state) :
  on_dataUpdate e data (set_wait_count 2 init) = (inr tt, s3) ->
  (exists s, main (replicate 7 []) init = TimedOut s /\ wait_count s = 7)
  /\ (forall n, (n < 7)%nat -> exists s, main (replicate n []) init = Waiting s)
  /\ (exists s, main ([[]; []; [DataUpdate e data]] ++ replicate 6 []) init = TimedOut s
                /\ wait_count s = 7)
  /\ (forall n, (n < 6)%nat ->
      exists s, main ([[]; []; [DataUpdate e data]] ++ replicate n []) init = Waiting s).
Proof.
  intros Hev.
  assert (W3 : wait_count s3 = 0).
  { pose proof (on_dataUpdate_wait_count e data (set_wait_count 2 init)) as H.
    rewrite Hev in H. exact H. }
  assert (Hpre : forall rest,
            main ([[]; []; [DataUpdate e data]] ++ rest) init
            = main rest (set_wait_count (wait_count s3 + 1) s3)).
  { intros rest. simpl app.
    rewrite main_cons by (simpl; lia).
    change (for_each [] dispatch init) with (@inr exn unit tt, init). cbv beta iota.
    rewrite main_cons by (simpl; lia).
    change (for_each [] dispatch ?s) with (@inr exn unit tt, s). cbv beta iota.
    rewrite main_cons by (simpl; lia).
    change (for_each [DataUpdate e data] dispatch ?s)
      with ((on_dataUpdate e data;; mret tt) s).
    unfold mbind, M_bind, bind.
    change (set_wait_count _ (set_wait_count _ init)) with (set_wait_count 2 init).
    rewrite Hev. reflexivity. }
  split; [| split; [| split]].
  - destruct (main_idle 7 init) as [_ H]; [simpl; lia |]. apply H. simpl. lia.
  - intros n Hn. destruct (main_idle n init) as [H _]; [simpl; lia |].
    destruct H as (s & E & _); [simpl; lia |]. exists s. exact E.
  - rewrite Hpre.
    destruct (main_idle 6 (set_wait_count (wait_count s3 + 1) s3)) as [_ H];
      [simpl; lia |]. apply H. simpl. lia.
  - intros n Hn. rewrite Hpre.
    destruct (main_idle n (set_wait_count (wait_count s3 + 1) s3)) as [H _];
      [simpl; lia |].
    destruct H as (s & E & _); [simpl; lia |]. exists s. exact E.
Qed.

Lemma liveness_counter_scenario_witness :
  on_dataUpdate (sample_env 0) no_data (set_wait_count 2 init)
  = (inr tt, set_wait_count 0 init)
  /\ (exists s, main ([[]; []; [DataUpdate (sample_env 0) no_data]] ++ replicate 6 []) init
                = TimedOut s /\ wait_count s = 7).
Proof.
  split; [reflexivity |].
  apply (liveness_counter_scenario (sample_env 0) no_data (set_wait_count 0 init)).
  reflexivity.
Defined.

(** C7 as stated fails: after an inbound event in the third cycle it is
    not the case that fewer than seven further idle cycles leave the
    session waiting; six are enough to end it. *)
Lemma six_idle_cycles_after_event_end_session :
  ~ (forall n, (n < 7)%nat ->
     exists s, main ([[]; []; [DataUpdate (sample_env 0) no_data]] ++ replicate n []) init
               = Waiting s).
Proof.
  intros H. destruct (H 6%nat) as [s Hs]; [lia |].
  vm_compute in Hs. discriminate Hs.
Qed.

(** ** Disconnect and error notifications *)

(** C8, as amended: a disconnect notification adds 8 to the counter, so
    that from any non-negative value the loop condition [wait_count < 7]
    is false afterwards, and exits the process; an error notification
    exits the process and leaves the counter as it was.  In both cases
    the session loop ends with the process exit. *)
Theorem disconnect_adds_eight_error_exits (s : state) :
  0 <= wait_count s ->
  on_disconnect s = (inl SystemExit, set_wait_count (wait_count s + 8) s)
  /\ wait_count (on_disconnect s).2 = wait_count s + 8
  /\ ~ (wait_count (on_disconnect s).2 < 7)
  /\ on_error s = (inl SystemExit, s)
  /\ (forall rest, wait_count s < 7 ->
      main ([Disconnect] :: rest) s = Exited (set_wait_count (wait_count s + 8) s))
  /\ (forall rest, wait_count s < 7 -> main ([Error] :: rest) s = Exited s).
Proof.
  intros Hs.
  assert (E : on_disconnect s = (inl SystemExit, set_wait_count (wait_count s + 8) s))
    by reflexivity.
  split; [exact E |].
  split; [rewrite E; reflexivity |].
  split; [rewrite E; simpl; lia |].
  split; [reflexivity |].
  split; intros rest Hlt; rewrite main_cons by exact Hlt; reflexivity.
Qed.

Lemma disconnect_adds_eight_error_exits_witness :
  0 <= wait_count init
  /\ wait_count (on_disconnect init).2 = 8
  /\ on_error init = (inl SystemExit, init).
Proof.
  split; [simpl; lia |].
  pose proof (disconnect_adds_eight_error_exits init) as H.
  destruct H as (_ & H2 & _ & H4 & _); [simpl; lia |].
  split; [exact H2 | exact H4].
Defined.

(** C8 as stated fails for the error notification: the counter is not
    incremented by 8. *)
Lemma error_leaves_counter_unchanged :
  wait_count (on_error init).2 <> wait_count init + 8.
Proof. simpl. lia. Qed.

(** ** Persistence of the derived views and of the glucose window *)

Lemma write_treatment_json_nil e f s : write_treatment_json e f [] s = (inr tt, s).
Proof. reflexivity. Qed.

Lemma write_glucose_json_nil e s : write_glucose_json e [] s = (inr tt, s).
Proof. reflexivity. Qed.

Lemma write_treatment_json_cons e f t rest s :
  write_treatment_json e f (t :: rest) s =
  match dsub "mills" t with
  | inl ex => (inl ex, s)
  | inr d =>
      match div_millis d with
      | inl ex => (inl ex, s)
      | inr q =>
          match isoformat e q with
          | inl ex => (inl ex, write_file f (t :: rest) q s)
          | inr _ => (inr tt, write_file f (t :: rest) q s)
          end
      end
  end.
Proof.
  unfold write_treatment_json, mbind, M_bind, bind, lift, modify.
  destruct (dsub "mills" t) as [ex|d]; [reflexivity |].
  destruct (div_millis d) as [ex|q]; [reflexivity |].
  destruct (isoformat e q) as [ex|txt]; reflexivity.
Qed.

Lemma write_glucose_json_cons e t rest s :
  write_glucose_json e (t :: rest) s =
  match dsub "date" t with
  | inl ex => (inl ex, s)
  | inr d =>
      match div_millis d with
      | inl ex => (inl ex, s)
      | inr q =>
          match isoformat e q with
          | inl ex => (inl ex, write_file "monitor/glucose.json" (t :: rest) q s)
          | inr _ => (inr tt, write_file "monitor/glucose.json" (t :: rest) q s)
          end
      end
  end.
Proof.
  unfold write_glucose_json, mbind, M_bind, bind, lift, modify.
  destruct (dsub "date" t) as [ex|d]; [reflexivity |].
  destruct (div_millis d) as [ex|q]; [reflexivity |].
  destruct (isoformat e q) as [ex|txt]; reflexivity.
Qed.

Lemma handle_meal_carbs_eq e s :
  handle_meal_carbs e s =
  if bool_decide (websocket_meal_carbs s ≠ meal_carbs_view e s)
  then write_treatment_json e "monitor/carbhistory.json" (meal_carbs_view e s)
         (set_meal_carbs (meal_carbs_view e s) s)
  else (inr tt, s).
Proof.
  unfold handle_meal_carbs, mbind, M_bind, bind, gets, modify.
  destruct (bool_decide _); reflexivity.
Qed.

Lemma handle_temp_targets_eq e s :
  handle_temp_targets e s =
  match temp_targets_view e s with
  | inl ex => (inl ex, s)
  | inr v =>
      if bool_decide (v ≠ websocket_temp_targets s)
      then write_treatment_json e "settings/temptargets.json" v (set_temp_targets v s)
      else (inr tt, s)
  end.
Proof.
  unfold handle_temp_targets, mbind, M_bind, bind, gets, modify, lift. simpl.
  destruct (temp_targets_view e s) as [ex|v]; [reflexivity |].
  destruct (bool_decide _); reflexivity.
Qed.

Lemma append_entry_files e entry : preserves files (append_entry e entry).
Proof. frame. Qed.

Lemma append_entry_write_log e entry : preserves write_log (append_entry e entry).
Proof. frame. Qed.

Lemma write_glucose_json_entries e l : preserves websocket_entries (write_glucose_json e l).
Proof. frame. Qed.

Lemma handle_sgvs_eq e data t s :
  handle_sgvs e data t s =
  match for_each (default [] (u_sgvs data)) (append_entry e) s with
  | (inl ex, s1) => (inl ex, s1)
  | (inr _, s1) => write_glucose_json e (glucose_window t (websocket_entries s1)) s1
  end.
Proof.
  unfold handle_sgvs, mbind, M_bind, bind, gets.
  destruct (for_each _ _ s) as [[ex|[]] s1]; reflexivity.
Qed.

(** C10: a recomputation that yields the empty list writes no file and
    sets no modification time, so what is on disk stays as it was; the
    view kept in memory is the empty list afterwards.  This holds for the
    meal-carbs view, for the temp-targets view and for the glucose
    window. *)
Theorem empty_result_is_not_persisted
  (e : env) (data : update) (timestamp_1d : Qc) (s : state) :
  (meal_carbs_view e s = [] ->
   exists s', handle_meal_carbs e s = (inr tt, s')
              /\ files s' = files s /\ write_log s' = write_log s
              /\ websocket_meal_carbs s' = [])
  /\ (temp_targets_view e s = inr [] ->
      exists s', handle_temp_targets e s = (inr tt, s')
                 /\ files s' = files s /\ write_log s' = write_log s
                 /\ websocket_temp_targets s' = [])
  /\ (glucose_window timestamp_1d
        (websocket_entries (handle_sgvs e data timestamp_1d s).2) = [] ->
      files (handle_sgvs e data timestamp_1d s).2 = files s
      /\ write_log (handle_sgvs e data timestamp_1d s).2 = write_log s).
Proof.
  split; [| split].
  - intros Hv. rewrite handle_meal_carbs_eq, Hv.
    destruct (bool_decide (websocket_meal_carbs s ≠ [])) eqn:Hd.
    + exists (set_meal_carbs [] s). repeat split; reflexivity.
    + exists s. apply bool_decide_eq_false_1 in Hd.
      repeat split; try reflexivity.
      destruct (decide (websocket_meal_carbs s = [])) as [E|N]; [exact E | contradiction].
  - intros Hv. rewrite handle_temp_targets_eq, Hv.
    destruct (bool_decide ([] ≠ websocket_temp_targets s)) eqn:Hd.
    + exists (set_temp_targets [] s). repeat split; reflexivity.
    + exists s. apply bool_decide_eq_false_1 in Hd.
      repeat split; try reflexivity.
      destruct (decide ([] = websocket_temp_targets s)) as [E|N];
        [symmetry; exact E | contradiction].
  - rewrite handle_sgvs_eq.
    pose proof (preserves_for_each files (default [] (u_sgvs data)) (append_entry e)
                  (append_entry_files e) s) as Hf.
    pose proof (preserves_for_each write_log (default [] (u_sgvs data)) (append_entry e)
                  (append_entry_write_log e) s) as Hw.
    destruct (for_each _ _ s) as [[ex|[]] s1]; simpl in Hf, Hw.
    + intros _. split; assumption.
    + intros Hwin.
      rewrite (write_glucose_json_entries e _ s1) in Hwin.
      rewrite Hwin. simpl. split; assumption.
Qed.

Lemma empty_result_is_not_persisted_witness :
  meal_carbs_view (sample_env 1800000000000) carb_ingested = []
  /\ websocket_meal_carbs carb_ingested = [carb_correction]
  /\ exists s', handle_meal_carbs (sample_env 1800000000000) carb_ingested = (inr tt, s')
                /\ files s' = files carb_ingested
                /\ write_log s' = write_log carb_ingested
                /\ websocket_meal_carbs s' = [].
Proof.
  assert (H1 : meal_carbs_view (sample_env 1800000000000) carb_ingested = [])
    by (vm_compute; reflexivity).
  split; [exact H1 |]. split; [vm_compute; reflexivity |].
  exact (proj1 (empty_result_is_not_persisted (sample_env 1800000000000) no_data
                  (QcZ 0) carb_ingested) H1).
Defined.

Lemma write_treatment_json_meal_carbs e f l :
  preserves websocket_meal_carbs (write_treatment_json e f l).
Proof. frame. Qed.

Lemma write_treatment_json_temp_targets e f l :
  preserves websocket_temp_targets (write_treatment_json e f l).
Proof. frame. Qed.


Lemma handle_meal_carbs_kept e s :
  websocket_meal_carbs (handle_meal_carbs e s).2 = meal_carbs_view e s.
Proof.
  rewrite handle_meal_carbs_eq.
  destruct (bool_decide (websocket_meal_carbs s ≠ meal_carbs_view e s)) eqn:Hd.
  - rewrite write_treatment_json_meal_carbs. reflexivity.
  - apply bool_decide_eq_false_1 in Hd. simpl.
    destruct (decide (websocket_meal_carbs s = meal_carbs_view e s)); [assumption | contradiction].
Qed.

Lemma handle_temp_targets_kept e s v :
  temp_targets_view e s = inr v ->
  websocket_temp_targets (handle_temp_targets e s).2 = v.
Proof.
  intros Hv. rewrite handle_temp_targets_eq, Hv.
  destruct (bool_decide (v ≠ websocket_temp_targets s)) eqn:Hd.
  - rewrite write_treatment_json_temp_targets. reflexivity.
  - apply bool_decide_eq_false_1 in Hd. simpl.
    destruct (decide (v = websocket_temp_targets s)); [symmetry; assumption | contradiction].
Qed.






(** ** Local treatment ingestion *)

Lemma reconcile_treatment_store e treatment :
  preserves websocket_treatments (reconcile_treatment e treatment).
Proof. frame. Qed.

Lemma invoke_reconcile_treatments_store e treatments_json :
  preserves websocket_treatments (invoke_reconcile_treatments e treatments_json).
Proof. frame. Qed.

(** C5, as amended: a record of the formatting tool whose key
    (eventType, timestamp) is not in the store is type-coerced and the
    whole record is pushed to the transport as a treatment-added event; a
    record whose key is in the store causes no push and no change.  In no
    case does local ingestion write to the store: it is the same after
    the whole batch as before. *)
Theorem local_ingestion_pushes_and_never_stores
  (e : env) (treatment : dict) (event_type timestamp : value) (s : state) :
  treatment !! "eventType" = Some event_type ->
  treatment !! "timestamp" = Some timestamp ->
  (websocket_treatments s !! (event_type, timestamp) = None ->
   forall coerced, coerce_duration (coerce e <$> treatment) = inr coerced ->
   reconcile_treatment e treatment s
   = (inr tt, set_emitted (emitted s ++ [DbAddTreatment coerced]) s))
  /\ (is_Some (websocket_treatments s !! (event_type, timestamp)) ->
      reconcile_treatment e treatment s = (inr tt, s))
  /\ (forall treatments_json,
      websocket_treatments (invoke_reconcile_treatments e treatments_json s).2
      = websocket_treatments s).
Proof.
  intros Het Hts.
  assert (E : reconcile_treatment e treatment s =
              match websocket_treatments s !! (event_type, timestamp) with
              | Some _ => (inr tt, s)
              | None =>
                  match coerce_duration (coerce e <$> treatment) with
                  | inl ex => (inl ex, s)
                  | inr coerced =>
                      (inr tt, set_emitted (emitted s ++ [DbAddTreatment coerced]) s)
                  end
              end).
  { unfold reconcile_treatment, mbind, M_bind, bind, lift, gets, modify, dsub.
    rewrite Het, Hts.
    destruct (websocket_treatments s !! (event_type, timestamp)); [reflexivity |].
    destruct (coerce_duration (coerce e <$> treatment)); reflexivity. }
  split; [| split].
  - intros Hnone coerced Hc. rewrite E, Hnone, Hc. reflexivity.
  - intros [old Hsome]. rewrite E, Hsome. reflexivity.
  - intros treatments_json. apply invoke_reconcile_treatments_store.
Qed.

Lemma local_ingestion_pushes_and_never_stores_witness :
  local_carbs !! "eventType" = Some (VStr "Carb Correction")
  /\ local_carbs !! "timestamp" = Some (VStr "2017-01-01T12:00:00-05:00")
  /\ websocket_treatments
       (invoke_reconcile_treatments (sample_env 1700000100) [local_carbs] init).2
     = websocket_treatments init.
Proof.
  assert (H1 : local_carbs !! "eventType" = Some (VStr "Carb Correction"))
    by (vm_compute; reflexivity).
  assert (H2 : local_carbs !! "timestamp" = Some (VStr "2017-01-01T12:00:00-05:00"))
    by (vm_compute; reflexivity).
  split; [exact H1 |]. split; [exact H2 |].
  exact (proj2 (proj2 (local_ingestion_pushes_and_never_stores
                         (sample_env 1700000100) local_carbs _ _ init H1 H2))
           [local_carbs]).
Defined.

(** Where decoded texts are instances of [str], a text of digits becomes
    an integer. *)
Example coerce_digits :
  coerce {| time := QcZ 0; fromtimestamp_isoformat := fun _ => None;
            float_of_text := fun _ => None; text_is_str := true |} (VStr "20")
  = VInt 20.
Proof. reflexivity. Qed.

(** C5 as stated fails: the record is pushed, but it is not upserted;
    the store has no entry under its key afterwards. *)
Lemma local_record_is_pushed_but_not_stored :
  emitted (invoke_reconcile_treatments (sample_env 1700000100) [local_carbs] init).2
  = [DbAddTreatment local_carbs]
  /\ websocket_treatments
       (invoke_reconcile_treatments (sample_env 1700000100) [local_carbs] init).2
     !! (VStr "Carb Correction", VStr "2017-01-01T12:00:00-05:00") = None.
Proof. split; vm_compute; reflexivity. Qed.

(** ** The bolus handshake *)

Lemma handle_status_eq e st bolus device confirmation amount s :
  st !! "bolus" = Some (Obj bolus) ->
  bolus !! "units" = Some amount ->
  bolus !! "target" = Some my_id ->
  st !! "device" = Some (Atom device) ->
  py_int (default (VInt 0) (bolus !! "confirmation")) = inr confirmation ->
  handle_status e st s =
  if bool_decide (default VNone (pending_confirmations s !! (device, confirmation))
                  = amount)
  then
    match pending_confirmations s !! (device, confirmation) with
    | Some _ =>
        perform_bolus amount
          (set_pending (delete (device, confirmation) (pending_confirmations s)) s)
    | None => (inl KeyError, s)
    end
  else
    ack_bolus_request e (device, Qc_trunc (time e)) amount s.
Proof.
  intros Hb Hu Ht Hd Hc.
  unfold handle_status. rewrite Hb.
  unfold mbind, M_bind, bind, lift, gets, modify, as_obj, dsub, fsub, hashable, raise.
  rewrite Hu, Ht, Hd, Hc.
  rewrite bool_decide_eq_false_2 by (intros N; apply N; reflexivity).
  destruct (bool_decide _); [| reflexivity].
  destruct (pending_confirmations s !! (device, confirmation)); reflexivity.
Qed.

(** C1, as amended.  For a bolus record addressed to this device, with a
    numeric amount: if the table maps (requester, nonce) to that amount,
    the table is emptied and the bolus is executed once, and the same
    record coming again executes no further bolus.  Otherwise (no entry
    under that key, or another amount) no bolus is executed and the
    handler itself leaves the table as it is, but it arms the debounced
    acknowledgment; when that timer fires, the table is replaced by the
    single entry (requester, time of the request) for the new amount and
    the acknowledgment is emitted. *)
Theorem bolus_handshake
  (e : env) (st : status) (bolus : dict) (device : value) (confirmation : Z)
  (q : Qc) (s : state) :
  st !! "bolus" = Some (Obj bolus) ->
  bolus !! "units" = Some (VNum q) ->
  bolus !! "target" = Some my_id ->
  st !! "device" = Some (Atom device) ->
  py_int (default (VInt 0) (bolus !! "confirmation")) = inr confirmation ->
  (pending_confirmations s !! (device, confirmation) = Some (VNum q) ->
   exists s',
     handle_status e st s = (inr tt, s')
     /\ pending_confirmations s' = ∅
     /\ boluses s' = boluses s ++ [VNum q]
     /\ boluses (handle_status e st s').2 = boluses s')
  /\ (pending_confirmations s !! (device, confirmation) <> Some (VNum q) ->
      exists s',
        handle_status e st s = (inr tt, s')
        /\ boluses s' = boluses s
        /\ pending_confirmations s' = pending_confirmations s
        /\ ack_timer s'
           = Some {| pc_token := (device, Qc_trunc (time e)); pc_amount := VNum q;
                     pc_due := (time e + QcZ 1)%Qc |}
        /\ forall e', (time e + QcZ 1 <= time e')%Qc ->
           boluses (ack_timer_fires e' s').2 = boluses s
           /\ pending_confirmations (ack_timer_fires e' s').2
              = {[ (device, Qc_trunc (time e)) := VNum q ]}
           /\ emitted (ack_timer_fires e' s').2
              = emitted s ++ [DbAddStatus (bolusack (device, Qc_trunc (time e)) (VNum q))]).
Proof.
  intros Hb Hu Ht Hd Hc. split.
  - intros Hp.
    exists (set_boluses (boluses s ++ [VNum q]) (set_pending ∅ s)).
    split; [| split; [reflexivity | split; [reflexivity |]]].
    + rewrite (handle_status_eq e st bolus device confirmation (VNum q) s Hb Hu Ht Hd Hc).
      rewrite Hp. case_bool_decide as Heq; [reflexivity |].
      exfalso. apply Heq. reflexivity.
    + rewrite (handle_status_eq e st bolus device confirmation (VNum q) _ Hb Hu Ht Hd Hc).
      change (pending_confirmations (set_boluses _ (set_pending ∅ s)))
        with (∅ : gmap token value).
      rewrite lookup_empty. case_bool_decide as Heq; [discriminate Heq | reflexivity].
  - intros Hp.
    exists (set_ack_timer
              (Some {| pc_token := (device, Qc_trunc (time e)); pc_amount := VNum q;
                       pc_due := (time e + QcZ 1)%Qc |}) s).
    split; [| split; [reflexivity | split; [reflexivity | split; [reflexivity |]]]].
    + rewrite (handle_status_eq e st bolus device confirmation (VNum q) s Hb Hu Ht Hd Hc).
      case_bool_decide as N; [| reflexivity].
      exfalso. apply Hp.
      destruct (pending_confirmations s !! (device, confirmation)) as [a|];
        simpl in N; [rewrite N; reflexivity | discriminate].
    + intros e' Hdue.
      unfold ack_timer_fires, mbind, M_bind, bind, gets, modify.
      cbn [ack_timer set_ack_timer pc_due].
      case_bool_decide as N; [| contradiction].
      repeat split; reflexivity.
Qed.

Lemma bolus_handshake_witness :
  bolus_request "phone" 5 3 !! "device" = Some (Atom (VStr "phone"))
  /\ pending_confirmations awaiting_confirm !! (VStr "phone", 5) <> Some (VInt 3)
  /\ exists s',
       handle_status (sample_env 100) (bolus_request "phone" 5 3) awaiting_confirm
       = (inr tt, s')
       /\ boluses s' = boluses awaiting_confirm
       /\ pending_confirmations s' = pending_confirmations awaiting_confirm.
Proof.
  assert (Hd : bolus_request "phone" 5 3 !! "device" = Some (Atom (VStr "phone")))
    by (vm_compute; reflexivity).
  assert (Hp : pending_confirmations awaiting_confirm !! (VStr "phone", 5)
               <> Some (VInt 3))
    by (vm_compute; discriminate).
  split; [exact Hd |]. split; [exact Hp |].
  destruct (bolus_handshake (sample_env 100) (bolus_request "phone" 5 3)
              (list_to_map [ ("units", VInt 3); ("target", my_id);
                             ("confirmation", VInt 5) ])
              (VStr "phone") 5 (QcZ 3) awaiting_confirm)
    as [_ H]; try (vm_compute; reflexivity).
  destruct (H Hp) as (s' & E & B & P & _).
  exists s'. split; [exact E | split; [exact B | exact P]].
Defined.

(** C1 as stated fails: after a resend under the matching nonce 5 with
    another amount (3 instead of 2), no bolus is executed, but once the
    acknowledgment timer has fired the table is no longer the one it was:
    the entry under nonce 5 is gone and the new amount waits under a new
    nonce. *)
Lemma resend_with_other_amount_replaces_table :
  boluses
    (ack_timer_fires (sample_env 101)
       (handle_devicestatus (sample_env 100)
          (status_batch [bolus_request "phone" 5 3]) awaiting_confirm).2).2 = []
  /\ pending_confirmations
       (ack_timer_fires (sample_env 101)
          (handle_devicestatus (sample_env 100)
             (status_batch [bolus_request "phone" 5 3]) awaiting_confirm).2).2
     <> pending_confirmations awaiting_confirm
  /\ pending_confirmations
       (ack_timer_fires (sample_env 101)
          (handle_devicestatus (sample_env 100)
             (status_batch [bolus_request "phone" 5 3]) awaiting_confirm).2).2
     = {[ (VStr "phone", 100) := VInt 3 ]}.
Proof.
  split; [vm_compute; reflexivity |].
  assert (E : pending_confirmations
                (ack_timer_fires (sample_env 101)
                   (handle_devicestatus (sample_env 100)
                      (status_batch [bolus_request "phone" 5 3]) awaiting_confirm).2).2
              = {[ (VStr "phone", 100) := VInt 3 ]})
    by (vm_compute; reflexivity).
  split; [| exact E].
  rewrite E. intros N.
  apply (f_equal (fun m => m !! (VStr "phone", 5))) in N.
  vm_compute in N. discriminate N.
Qed.

(** ** Malformed records *)

(** A loop whose body raises at one record stops there: the records
    before it stay applied, the records after it are not processed. *)
Lemma for_each_raises {A} (body : A -> M unit) pre bad post ex s s1 s2 :
  for_each pre body s = (inr tt, s1) ->
  body bad s1 = (inl ex, s2) ->
  for_each (pre ++ bad :: post) body s = (inl ex, s2).
Proof.
  revert s. induction pre as [|x pre IH]; intros s Hpre Hbad; simpl in *.
  - injection Hpre as <-. unfold mbind, M_bind, bind. rewrite Hbad. reflexivity.
  - unfold mbind, M_bind, bind in *.
    destruct (body x s) as [[ex'|[]] s'].
    + discriminate Hpre.
    + apply IH; assumption.
Qed.

Lemma on_dataUpdate_sgvs_eq e l s :
  on_dataUpdate e (sgv_batch l) s =
  except_exit (handle_sgvs e (sgv_batch l) (timestamp_hours_ago e 24))
    (set_wait_count 0 s).
Proof.
  unfold on_dataUpdate, except_exit, when, sgv_batch, u_devicestatus, u_sgvs,
    u_treatments, mbind, M_bind, bind, modify, mret, M_ret, ret.
  cbv zeta.
  destruct (handle_sgvs e _ _ (set_wait_count 0 s)) as [[ex|[]] s1]; reflexivity.
Qed.

Lemma on_dataUpdate_treatments_eq e l s :
  on_dataUpdate e (cloud_batch l) s =
  except_exit (handle_treatments e (cloud_batch l)) (set_wait_count 0 s).
Proof.
  unfold on_dataUpdate, except_exit, when, cloud_batch, u_devicestatus, u_sgvs,
    u_treatments, mbind, M_bind, bind, modify, mret, M_ret, ret.
  cbv zeta.
  destruct (handle_treatments e _ (set_wait_count 0 s)) as [[ex|[]] s1]; reflexivity.
Qed.

Lemma on_dataUpdate_devicestatus_eq e l s :
  on_dataUpdate e (status_batch l) s =
  except_exit (handle_devicestatus e (status_batch l)) (set_wait_count 0 s).
Proof.
  unfold on_dataUpdate, except_exit, when, status_batch, u_devicestatus, u_sgvs,
    u_treatments, mbind, M_bind, bind, modify, mret, M_ret, ret.
  cbv zeta.
  destruct (handle_devicestatus e _ (set_wait_count 0 s)) as [[ex|[]] s1]; reflexivity.
Qed.

(** C6, as amended.  Fields read with [get] are best effort: a glucose
    record with a numeric [mills] is normalized and appended whatever
    other keys it lacks.  A key read by subscript is required: a glucose
    record without [mills], an inserted treatment without [eventType] and
    a bolus status without [units] raise [KeyError]; [on_dataUpdate]
    catches it and exits the process, with the records before the bad one
    applied and the records after it not processed. *)
Theorem missing_key_ends_the_session
  (e : env) (s s1 : state) (bad : dict) (pre post : list dict)
  (bad_status : status) (bolus : dict) (pre_st post_st : list status) :
  (forall entry q txt,
     entry !! "mills" = Some (VNum q) ->
     fromtimestamp_isoformat e (q / MILLIS_PER_SECOND)%Qc = Some txt ->
     append_entry e entry s
     = (inr tt, set_entries (websocket_entries s ++ [normalize entry txt]) s))
  /\ (bad !! "mills" = None ->
      for_each pre (append_entry e) (set_wait_count 0 s) = (inr tt, s1) ->
      on_dataUpdate e (sgv_batch (pre ++ bad :: post)) s = (inl SystemExit, s1))
  /\ (bad !! "eventType" = None ->
      is_remove bad = false ->
      for_each pre handle_treatment (set_wait_count 0 s) = (inr tt, s1) ->
      on_dataUpdate e (cloud_batch (pre ++ bad :: post)) s = (inl SystemExit, s1))
  /\ (bad_status !! "bolus" = Some (Obj bolus) ->
      bolus !! "units" = None ->
      for_each pre_st (handle_status e) (set_wait_count 0 s) = (inr tt, s1) ->
      on_dataUpdate e (status_batch (pre_st ++ bad_status :: post_st)) s
      = (inl SystemExit, s1)).
Proof.
  split; [| split; [| split]].
  - intros entry q txt Hm Hf.
    unfold append_entry, mbind, M_bind, bind, lift, modify, dsub, div_millis, isoformat.
    rewrite Hm, Hf. reflexivity.
  - intros Hbad Hpre.
    rewrite on_dataUpdate_sgvs_eq. unfold except_exit.
    rewrite handle_sgvs_eq.
    change (default [] (u_sgvs (sgv_batch (pre ++ bad :: post))))
      with (pre ++ bad :: post).
    rewrite (for_each_raises (append_entry e) pre bad post KeyError _ s1 s1 Hpre);
      [reflexivity |].
    unfold append_entry, mbind, M_bind, bind, lift, dsub. rewrite Hbad. reflexivity.
  - intros Hbad Hrm Hpre.
    rewrite on_dataUpdate_treatments_eq. unfold except_exit, handle_treatments.
    change (default [] (u_treatments (cloud_batch (pre ++ bad :: post))))
      with (pre ++ bad :: post).
    unfold mbind at 1. unfold M_bind at 1. unfold bind at 1.
    rewrite (for_each_raises handle_treatment pre bad post KeyError _ s1 s1 Hpre);
      [reflexivity |].
    unfold handle_treatment. rewrite Hrm.
    unfold mbind, M_bind, bind, lift, dsub. rewrite Hbad. reflexivity.
  - intros Hb Hu Hpre.
    rewrite on_dataUpdate_devicestatus_eq. unfold except_exit, handle_devicestatus.
    change (default [] (u_devicestatus (status_batch (pre_st ++ bad_status :: post_st))))
      with (pre_st ++ bad_status :: post_st).
    rewrite (for_each_raises (handle_status e) pre_st bad_status post_st KeyError
               _ s1 s1 Hpre); [reflexivity |].
    unfold handle_status. rewrite Hb.
    unfold mbind, M_bind, bind, lift, as_obj, dsub. rewrite Hu. reflexivity.
Qed.

Lemma missing_key_ends_the_session_witness :
  sgv_without_mills !! "mills" = None
  /\ for_each [] (append_entry (sample_env 1700000100)) (set_wait_count 0 init)
     = (inr tt, set_wait_count 0 init)
  /\ on_dataUpdate (sample_env 1700000100)
       (sgv_batch ([] ++ sgv_without_mills :: [sgv 1700000000000 120])) init
     = (inl SystemExit, set_wait_count 0 init).
Proof.
  assert (H1 : sgv_without_mills !! "mills" = None) by (vm_compute; reflexivity).
  assert (H2 : for_each [] (append_entry (sample_env 1700000100)) (set_wait_count 0 init)
               = (inr tt, set_wait_count 0 init)) by reflexivity.
  split; [exact H1 |]. split; [exact H2 |].
  exact (proj1 (proj2 (missing_key_ends_the_session
                         (sample_env 1700000100) init (set_wait_count 0 init)
                         sgv_without_mills [] [sgv 1700000000000 120]
                         ∅ ∅ [] []))
           H1 H2).
Defined.

(** C6 as stated fails: a glucose record without [mills] ends the
    session, and the complete record that follows it in the batch is not
    processed: nothing is appended and nothing is written. *)
Lemma record_without_mills_stops_the_batch :
  (on_dataUpdate (sample_env 1700000100)
     (sgv_batch [sgv_without_mills; sgv 1700000000000 120]) init).1 = inl SystemExit
  /\ websocket_entries
       (on_dataUpdate (sample_env 1700000100)
          (sgv_batch [sgv_without_mills; sgv 1700000000000 120]) init).2 = []
  /\ length (websocket_entries
       (on_dataUpdate (sample_env 1700000100)
          (sgv_batch [sgv 1700000000000 120]) init).2) = 1%nat.
Proof. split; [| split]; vm_compute; reflexivity. Qed.

(** ** The stable descending sort *)

Lemma insert_desc_perm {A} (key : A -> value) x l : insert_desc key x l ≡ₚ x :: l.
Proof.
  induction l as [|y r IH]; simpl.
  - reflexivity.
  - destruct (py_gt (key y) (key x)); [| reflexivity].
    rewrite IH. apply Permutation_swap.
Qed.

Lemma sort_desc_perm {A} (key : A -> value) l : sort_desc key l ≡ₚ l.
Proof.
  induction l as [|x l IH]; simpl.
  - reflexivity.
  - rewrite insert_desc_perm, IH. reflexivity.
Qed.

Lemma py_lt_asym a b : py_lt a b = true -> py_lt b a = false.
Proof.
  unfold py_lt. destruct a as [|p|s], b as [|q|t]; simpl; try discriminate; try reflexivity.
  - unfold Qccompare. rewrite <- (Qcompare_antisym p q).
    destruct (p ?= q)%Q; simpl; intros H; try discriminate H; reflexivity.
  - rewrite (String.compare_antisym t s).
    destruct (String.compare s t); simpl; intros H; try discriminate H; reflexivity.
Qed.

Lemma py_lt_irrefl a : py_lt a a = false.
Proof.
  destruct (py_lt a a) eqn:E; [| reflexivity].
  rewrite (py_lt_asym a a E) in E. discriminate E.
Qed.



Lemma py_lt_num p q : py_lt (VNum p) (VNum q) = true <-> (p < q)%Qc.
Proof.
  unfold py_lt. simpl. rewrite Qclt_alt.
  destruct (p ?= q)%Qc; split; intros H; try discriminate; reflexivity.
Qed.



(** ** The glucose window *)

Lemma normalize_date entry txt :
  normalize entry txt !! "date" = Some (dget "mills" entry).
Proof. reflexivity. Qed.






(** The threshold of the window is the clock reading in seconds minus 24
    hours in milliseconds: a reading taken 48 hours before the clock
    reading passes the filter and is written. *)
Lemma two_day_old_reading_is_persisted :
  timestamp_hours_ago (sample_env 1700000000) 24 = QcZ 1613600000
  /\ content <$>
       files (on_dataUpdate (sample_env 1700000000)
                (sgv_batch [sgv 1699827200000 120]) init).2
       !! "monitor/glucose.json"
     = Some [normalize (sgv 1699827200000 120) "2017-01-01T00:00:00"]
  /\ ~ within_24_hours (QcZ 1700000000) (QcZ 1699827200000).
Proof.
  split; [apply Qc_is_canon; vm_compute; reflexivity |].
  split; [vm_compute; reflexivity |].
  intros H. vm_compute in H. discriminate H.
Qed.

(** ** Removal of cloud treatments *)

Lemma del_treatment_other key k :
  key <> k -> preserves (fun s => websocket_treatments s !! k) (del_treatment key).
Proof.
  intros Hne s. unfold del_treatment, mbind, M_bind, bind, gets, modify, raise.
  destruct (websocket_treatments s !! key); simpl; [| reflexivity].
  apply lookup_delete_ne. exact Hne.
Qed.

(** A remove record deletes under its own time stamp only: a stored
    treatment whose key has another time stamp stays, whatever its id. *)
Lemma remove_spares_other_timestamps treatment event_type timestamp s :
  is_remove treatment = true ->
  timestamp_of treatment <> timestamp ->
  websocket_treatments (handle_treatment treatment s).2 !! (event_type, timestamp)
  = websocket_treatments s !! (event_type, timestamp).
Proof.
  intros Hrm Hne. revert s.
  change (preserves (fun s => websocket_treatments s !! (event_type, timestamp))
            (handle_treatment treatment)).
  unfold handle_treatment. rewrite Hrm.
  apply preserves_bind; [apply preserves_gets |]. intros s0.
  apply preserves_bind; [apply preserves_lift |]. intros removed.
  apply preserves_for_each. intros removed_treatment.
  apply preserves_except_KeyError.
  apply preserves_bind; [apply preserves_lift |]. intros et.
  apply del_treatment_other. intros N. apply Hne.
  injection N as _ N. exact N.
Qed.

(** C2: the code does not remove the treatment.  [carb_correction], with
    id "abc", is stored under ("Carb Correction", 1000).  A remove record
    with the same id is processed without an exception, but the treatment
    is still in the store afterwards, both when the remove record has
    nothing but the id and when it has another time stamp (2000): the
    key to delete takes its time stamp from the remove record and not
    from the stored treatment.  Only when the remove record repeats the
    time stamp of the stored key is the treatment deleted. *)
Theorem remove_by_id_leaves_treatment_in_store :
  websocket_treatments carb_ingested !! (VStr "Carb Correction", VInt 1000)
  = Some carb_correction
  /\ carb_correction !! "_id" = Some (VStr "abc")
  /\ (on_dataUpdate (sample_env 1700000100) (cloud_batch [remove_abc]) carb_ingested).1
     = inr tt
  /\ websocket_treatments
       (on_dataUpdate (sample_env 1700000100) (cloud_batch [remove_abc]) carb_ingested).2
     !! (VStr "Carb Correction", VInt 1000) = Some carb_correction
  /\ (on_dataUpdate (sample_env 1700000100) (cloud_batch [remove_abc_2000])
        carb_ingested).1 = inr tt
  /\ websocket_treatments
       (on_dataUpdate (sample_env 1700000100) (cloud_batch [remove_abc_2000])
          carb_ingested).2
     !! (VStr "Carb Correction", VInt 1000) = Some carb_correction
  /\ websocket_treatments
       (on_dataUpdate (sample_env 1700000100)
          (cloud_batch [<["timestamp" := VInt 1000]> remove_abc]) carb_ingested).2
     !! (VStr "Carb Correction", VInt 1000) = None.
Proof. repeat split; vm_compute; reflexivity. Qed.

(** * Further properties of the code *)

(** ** [debounce] *)

Lemma debounce_state_snoc {A} wait (evs : list (debounce_event A)) ev t :
  debounce_state wait (evs ++ [ev]) t
  = (debounce_step wait ev (debounce_state wait evs t)).2.
Proof. unfold debounce_state. rewrite foldl_app. reflexivity. Qed.

Lemma last_call_snoc {A} (evs : list (debounce_event A)) ev :
  last_call (evs ++ [ev])
  = match ev with DCall now args => Some (now, args) | DTick _ => last_call evs end.
Proof. unfold last_call. rewrite foldl_app. reflexivity. Qed.

(** The timer held after a history is the one of its latest call. *)
Lemma debounce_state_last_call {A} wait (evs : list (debounce_event A)) :
  match debounce_state wait evs None, last_call evs with
  | None, None => True
  | Some tm, Some (t, args) => d_due tm = (t + wait)%Qc /\ d_args tm = args
  | _, _ => False
  end.
Proof.
  induction evs as [|ev evs IH] using rev_ind.
  - exact I.
  - rewrite debounce_state_snoc, last_call_snoc.
    destruct ev as [now args|now]; simpl.
    + split; reflexivity.
    + unfold debounce_fires.
      destruct (debounce_state wait evs None) as [tm|], (last_call evs) as [[t a]|];
        try contradiction; [| exact I].
      destruct (d_live tm && bool_decide (d_due tm <= now)%Qc); simpl; exact IH.
Qed.

(** X1: whenever the debounced function runs, it runs with the arguments
    of the latest invocation, and not before [wait] has elapsed since
    that invocation. *)
Theorem debounce_runs_the_latest_call_after_wait
  {A} (wait T : Qc) (pre : list (debounce_event A)) (args : A)
  (t' : option (debounce_timer A)) :
  debounce_step wait (DTick T) (debounce_state wait pre None) = (Some args, t') ->
  exists t, last_call pre = Some (t, args) /\ (t + wait <= T)%Qc.
Proof.
  intros H. simpl in H. unfold debounce_fires in H.
  pose proof (debounce_state_last_call wait pre) as Hinv.
  destruct (debounce_state wait pre None) as [tm|]; [| discriminate H].
  destruct (last_call pre) as [[t a]|]; [| contradiction].
  destruct Hinv as [Hdue Hargs].
  destruct (d_live tm); simpl in H; [| discriminate H].
  case_bool_decide as Hle; [| discriminate H].
  injection H as H _. exists t. split; [congruence |].
  rewrite <- Hdue. exact Hle.
Qed.

Lemma debounce_runs_the_latest_call_after_wait_witness :
  debounce_step (QcZ 10) (DTick (QcZ 15))
    (debounce_state (QcZ 10) [DCall (QcZ 0) 1%nat; DCall (QcZ 3) 2%nat] None)
  = (Some 2%nat, Some {| d_due := (QcZ 3 + QcZ 10)%Qc; d_args := 2%nat; d_live := false |})
  /\ exists t, last_call [DCall (QcZ 0) 1%nat; DCall (QcZ 3) 2%nat] = Some (t, 2%nat)
               /\ (t + QcZ 10 <= QcZ 15)%Qc.
Proof.
  assert (H : debounce_step (QcZ 10) (DTick (QcZ 15))
                (debounce_state (QcZ 10) [DCall (QcZ 0) 1%nat; DCall (QcZ 3) 2%nat] None)
              = (Some 2%nat,
                 Some {| d_due := (QcZ 3 + QcZ 10)%Qc; d_args := 2%nat; d_live := false |}))
    by reflexivity.
  split; [exact H |].
  exact (debounce_runs_the_latest_call_after_wait _ _ _ _ _ H).
Defined.

Lemma debounce_run_app {A} wait (l1 l2 : list (debounce_event A)) t :
  debounce_run wait (l1 ++ l2) t
  = debounce_run wait l1 t ++ debounce_run wait l2 (debounce_state wait l1 t).
Proof.
  revert t. induction l1 as [|ev l1 IH]; intros t; simpl.
  - reflexivity.
  - change (debounce_state wait (ev :: l1) t)
      with (debounce_state wait l1 (debounce_step wait ev t).2).
    destruct (debounce_step wait ev t) as [[a|] t1]; simpl; rewrite IH; reflexivity.
Qed.

Lemma debounce_run_dead_ticks {A} wait (later : list Qc) (tm : debounce_timer A) :
  d_live tm = false ->
  debounce_run wait (map DTick later) (Some tm) = [].
Proof.
  intros Hdead. induction later as [|u later IH]; simpl.
  - reflexivity.
  - rewrite Hdead. simpl. exact IH.
Qed.

(** X2: after any history, an invocation followed by a tick at or after
    its delay runs the function exactly once, with the arguments of that
    invocation, and further ticks do not run it again. *)
Theorem debounce_runs_once_after_the_delay
  {A} (wait t T : Qc) (pre : list (debounce_event A)) (args : A) (later : list Qc) :
  (t + wait <= T)%Qc ->
  debounce_run wait (pre ++ [DCall t args; DTick T] ++ map DTick later) None
  = debounce_run wait pre None ++ [(T, args)].
Proof.
  intros Hdue. rewrite debounce_run_app. f_equal.
  simpl. rewrite bool_decide_eq_true_2 by exact Hdue. simpl.
  f_equal. apply debounce_run_dead_ticks. reflexivity.
Qed.

Lemma debounce_runs_once_after_the_delay_witness :
  (QcZ 3 + QcZ 10 <= QcZ 13)%Qc
  /\ debounce_run (QcZ 10)
       ([DCall (QcZ 0) 1%nat; DCall (QcZ 2) 2%nat]
        ++ [DCall (QcZ 3) 3%nat; DTick (QcZ 13)] ++ map DTick [QcZ 14; QcZ 30]) None
     = debounce_run (QcZ 10) [DCall (QcZ 0) 1%nat; DCall (QcZ 2) 2%nat] None
       ++ [(QcZ 13, 3%nat)].
Proof.
  assert (H : (QcZ 3 + QcZ 10 <= QcZ 13)%Qc) by (vm_compute; discriminate).
  split; [exact H |].
  exact (debounce_runs_once_after_the_delay (QcZ 10) (QcZ 3) (QcZ 13)
           [DCall (QcZ 0) 1%nat; DCall (QcZ 2) 2%nat] 3%nat [QcZ 14; QcZ 30] H).
Defined.

Lemma debounce_run_bound {A} wait (evs : list (debounce_event A)) t :
  (length (debounce_run wait evs t)
   <= length (filter (fun ev => is_call ev = true) evs)
      + match t with Some tm => if d_live tm then 1 else 0 | None => 0 end)%nat.
Proof.
  revert t. induction evs as [|ev evs IH]; intros t.
  - simpl. lia.
  - destruct ev as [now args|now].
    + rewrite filter_cons_True by reflexivity.
      specialize (IH (debounced wait now args t)).
      cbn [debounce_run debounce_step length]. simpl in IH. lia.
    + rewrite filter_cons_False by (simpl; discriminate).
      cbn [debounce_run debounce_step]. unfold debounce_fires.
      destruct t as [tm|]; [| apply (IH None)].
      destruct (d_live tm) eqn:Hl; cbn [andb].
      * case_bool_decide.
        -- specialize (IH (Some {| d_due := d_due tm; d_args := d_args tm;
                                   d_live := false |})).
           cbn [length]. simpl in IH. lia.
        -- specialize (IH (Some tm)). cbn beta iota in IH. rewrite Hl in IH. exact IH.
      * specialize (IH (Some tm)). cbn beta iota in IH. rewrite Hl in IH. exact IH.
Qed.

(** X3: the debounced function never runs more often than it was
    invoked, whatever the order and the times of calls and ticks. *)
Theorem debounce_never_runs_more_than_invoked
  {A} (wait : Qc) (evs : list (debounce_event A)) :
  (length (debounce_run wait evs None)
   <= length (filter (fun ev => is_call ev = true) evs))%nat.
Proof. pose proof (debounce_run_bound wait evs None) as H. simpl in H. lia. Qed.

(** ** The file-change router *)

Lemma on_modified_outside src_path event_type :
  src_path ∉ meal_paths ++ settings_paths ++ status_paths ->
  on_modified src_path event_type = [].
Proof.
  intros Hout. rewrite !not_elem_of_app in Hout. destruct Hout as (Hm & Hs & Hn).
  unfold on_modified.
  destruct (bool_decide (src_path = "./.git"%string)); [reflexivity |].
  destruct (bool_decide (event_type = "modified"%string)); [| reflexivity].
  rewrite (bool_decide_eq_false_2 _ Hm), (bool_decide_eq_false_2 _ Hs),
    (bool_decide_eq_false_2 _ Hn).
  rewrite bool_decide_eq_false_2; [reflexivity |].
  intros ->. apply Hm. unfold meal_paths. do 3 apply list_elem_of_further.
  apply list_elem_of_here.
Qed.

Ltac absurd_membership :=
  repeat match goal with
         | H : _ /\ _ |- _ => destruct H
         | H : _ ∈ [] |- _ => apply elem_of_nil in H; contradiction
         | H : _ ∈ _ :: _ |- _ =>
             apply elem_of_cons in H; destruct H as [H|H]; [try discriminate H |]
         end.

Ltac router_case :=
  match goal with
  | |- context [on_modified ?p "modified"] =>
      let L := fresh "L" in
      let E := fresh "E" in
      remember (on_modified p "modified") as L eqn:E;
      vm_compute in E; subst L
  end.

(** X4: a notification whose type is not "modified", or whose path is
    outside the table, invokes nothing; no path invokes more than two
    actions; the treatment reconciliation is invoked for the pump history
    only, after the meal report; the settings report and the status
    snapshot are never invoked by the same path. *)
Theorem router_invokes_at_most_two_actions (src_path event_type : string) :
  (event_type <> "modified"%string -> on_modified src_path event_type = [])
  /\ (src_path ∉ meal_paths ++ settings_paths ++ status_paths ->
      on_modified src_path event_type = [])
  /\ (length (on_modified src_path event_type) <= 2)%nat
  /\ (InvokeReconcileTreatments ∈ on_modified src_path event_type ->
      src_path = "./monitor/pumphistory-zoned.json"%string
      /\ on_modified src_path event_type = [InvokeMealJson; InvokeReconcileTreatments])
  /\ ~ (InvokeSettingsProfileJson ∈ on_modified src_path event_type
        /\ InvokeNsStatus ∈ on_modified src_path event_type).
Proof.
  assert (Hty : event_type <> "modified"%string -> on_modified src_path event_type = []).
  { intros Hne. unfold on_modified.
    destruct (bool_decide (src_path = "./.git"%string)); [reflexivity |].
    rewrite bool_decide_eq_false_2 by exact Hne. reflexivity. }
  split; [exact Hty |]. split; [apply on_modified_outside |].
  destruct (decide (event_type = "modified"%string)) as [->|Hne].
  2:{ rewrite (Hty Hne). simpl. split; [lia |]. split; intros H; absurd_membership. }
  destruct (decide (src_path ∈ meal_paths ++ settings_paths ++ status_paths))
    as [Hin|Hout].
  2:{ rewrite (on_modified_outside _ _ Hout). simpl.
      split; [lia |]. split; intros H; absurd_membership. }
  unfold meal_paths, settings_paths, status_paths in Hin. simpl in Hin.
  repeat (apply elem_of_cons in Hin as [->|Hin]);
    [router_case; (split; [simpl; lia |]);
     (split; [intros H; first [split; reflexivity | exfalso; absurd_membership]
             | intros H; absurd_membership]) .. |].
  apply elem_of_nil in Hin. contradiction.
Qed.

(** ** Invariants of the handlers *)

Lemma keeps_ret {A} (P : state -> Prop) (a : A) : keeps P (mret a).
Proof. intros s H. exact H. Qed.

Lemma keeps_raise {A} (P : state -> Prop) (ex : exn) : keeps P (@raise A ex).
Proof. intros s H. exact H. Qed.

Lemma keeps_lift {A} (P : state -> Prop) (r : exn + A) : keeps P (lift r).
Proof. intros s H. exact H. Qed.

Lemma keeps_gets {A} (P : state -> Prop) (g : state -> A) : keeps P (gets g).
Proof. intros s H. exact H. Qed.

Lemma keeps_modify (P : state -> Prop) (g : state -> state) :
  (forall s, P s -> P (g s)) -> keeps P (modify g).
Proof. intros H s Hs. apply H. exact Hs. Qed.

Lemma keeps_bind {A B} (P : state -> Prop) (m : M A) (k : A -> M B) :
  keeps P m -> (forall a, keeps P (k a)) -> keeps P (m ≫= k).
Proof.
  intros Hm Hk s Hs. unfold mbind, M_bind, bind.
  specialize (Hm s Hs). destruct (m s) as [[ex|a] s1]; simpl in *.
  - exact Hm.
  - apply Hk. exact Hm.
Qed.

(** The continuation of a pure step may use the fact that it succeeded. *)
Lemma keeps_bind_lift {A B} (P : state -> Prop) (r : exn + A) (k : A -> M B) :
  (forall a, r = inr a -> keeps P (k a)) -> keeps P (lift r ≫= k).
Proof.
  intros Hk s Hs. unfold mbind, M_bind, bind, lift.
  destruct r as [ex|a]; simpl.
  - exact Hs.
  - apply (Hk a eq_refl). exact Hs.
Qed.

Lemma keeps_for_each {A} (P : state -> Prop) (xs : list A) (body : A -> M unit) :
  (forall x, x ∈ xs -> keeps P (body x)) -> keeps P (for_each xs body).
Proof.
  induction xs as [|x xs IH]; intros Hb; simpl.
  - apply keeps_ret.
  - apply keeps_bind.
    + apply Hb. apply list_elem_of_here.
    + intros _. apply IH. intros y Hy. apply Hb. apply list_elem_of_further. exact Hy.
Qed.

Lemma keeps_except_KeyError (P : state -> Prop) (m : M unit) :
  keeps P m -> keeps P (except_KeyError m).
Proof.
  intros Hm s Hs. unfold except_KeyError. specialize (Hm s Hs).
  destruct (m s) as [[[]|[]] s1]; exact Hm.
Qed.

Lemma keeps_except_exit (P : state -> Prop) (m : M unit) :
  keeps P m -> keeps P (except_exit m).
Proof.
  intros Hm s Hs. unfold except_exit. specialize (Hm s Hs).
  destruct (m s) as [[ex|[]] s1]; exact Hm.
Qed.

Lemma keeps_when {A} (P : state -> Prop) (o : option A) (m : M unit) :
  keeps P m -> keeps P (when o m).
Proof. intros Hm. destruct o; [exact Hm | apply keeps_ret]. Qed.

(** What depends on one attribute only is kept by whatever leaves that
    attribute alone. *)
Lemma keeps_of_preserves {A B} (f : state -> A) (Q : A -> Prop) (m : M B) :
  preserves f m -> keeps (fun s => Q (f s)) m.
Proof. intros Hm s Hs. rewrite Hm. exact Hs. Qed.

(** [on_dataUpdate] keeps what the reset of the counter and the three
    handlers keep. *)
Lemma keeps_on_dataUpdate (P : state -> Prop) e data :
  (forall s, P s -> P (set_wait_count 0 s)) ->
  keeps P (handle_devicestatus e data) ->
  (forall t, keeps P (handle_sgvs e data t)) ->
  keeps P (handle_treatments e data) ->
  keeps P (on_dataUpdate e data).
Proof.
  intros Hw Hd Hs Ht. unfold on_dataUpdate.
  apply keeps_except_exit.
  apply keeps_bind; [apply keeps_modify; exact Hw |]. intros _. cbv zeta.
  apply keeps_bind; [apply keeps_when; exact Hd |]. intros _.
  apply keeps_bind; [apply keeps_when; apply Hs |]. intros _.
  apply keeps_when. exact Ht.
Qed.

(** What [handle_status] can do to the state: nothing; empty the table
    after a match, executing the bolus when the amount is a number; or
    arm the acknowledgment. *)
Lemma handle_status_cases e st s :
  (handle_status e st s).2 = s
  \/ (exists bolus device confirmation amount,
        st !! "bolus" = Some (Obj bolus)
        /\ bolus !! "units" = Some amount
        /\ bolus !! "target" = Some my_id
        /\ st !! "device" = Some (Atom device)
        /\ py_int (default (VInt 0) (bolus !! "confirmation")) = inr confirmation
        /\ pending_confirmations s !! (device, confirmation) = Some amount
        /\ ((exists q, amount = VNum q
                       /\ handle_status e st s
                          = (inr tt, set_boluses (boluses s ++ [amount]) (set_pending ∅ s)))
            \/ handle_status e st s = (inl TypeError, set_pending ∅ s)))
  \/ (exists tok amount,
        handle_status e st s
        = (inr tt, set_ack_timer
                     (Some {| pc_token := tok; pc_amount := amount;
                              pc_due := (time e + QcZ 1)%Qc |}) s)).
Proof.
  unfold handle_status.
  destruct (st !! "bolus") as [b|] eqn:Hb; [| left; reflexivity].
  unfold mbind, M_bind, bind, lift, gets, modify, raise, as_obj, dsub, fsub, hashable.
  destruct b as [v|bolus]; [left; reflexivity |].
  destruct (bolus !! "units") as [amount|] eqn:Hu; [| left; reflexivity].
  destruct (bolus !! "target") as [target|] eqn:Ht; [| left; reflexivity].
  case_bool_decide as Htg; [left; reflexivity |].
  assert (target = my_id) as ->.
  { destruct (decide (target = my_id)); [assumption | contradiction]. }
  destruct (st !! "device") as [dv|] eqn:Hd; [| left; reflexivity].
  destruct (py_int (default (VInt 0) (bolus !! "confirmation")))
    as [ex|confirmation] eqn:Hc; [left; reflexivity |].
  destruct dv as [device|o]; [| left; reflexivity].
  case_bool_decide as Hm.
  - destruct (pending_confirmations s !! (device, confirmation)) as [a|] eqn:Hp;
      [| left; reflexivity].
    simpl in Hm. subst a.
    right. left. exists bolus, device, confirmation, amount.
    repeat (split; [first [reflexivity | assumption] |]).
    unfold perform_bolus, mbind, M_bind, bind, modify, raise.
    destruct amount as [|q|txt]; [right; reflexivity | left | right; reflexivity].
    exists q. split; reflexivity.
  - right. right. eexists _, _. reflexivity.
Qed.



Lemma handle_sgvs_pending e data t :
  preserves pending_confirmations (handle_sgvs e data t).
Proof. frame. Qed.


Lemma handle_treatments_pending e data :
  preserves pending_confirmations (handle_treatments e data).
Proof. frame. Qed.

(** ** Safety of the bolus handshake *)


Lemma handle_status_pending e st s :
  pending_confirmations (handle_status e st s).2 = pending_confirmations s
  \/ pending_confirmations (handle_status e st s).2 = ∅.
Proof.
  destruct (handle_status_cases e st s)
    as [E|[(bolus & device & confirmation & amount & _ & _ & _ & _ & _ & _ & Hr)
          |(tok & amount & E)]].
  - rewrite E. left. reflexivity.
  - destruct Hr as [(q & _ & E)|E]; rewrite E; right; reflexivity.
  - rewrite E. left. reflexivity.
Qed.

(** X6: handling an inbound event never adds an entry to the table of
    pending confirmations: afterwards the table is the one before, or
    empty.  Only the acknowledgment timer writes an entry, and then the
    table is that single entry.  So a table with at most one entry keeps
    at most one entry. *)
Theorem pending_table_never_grows_beyond_one (e : env) (data : update) (s : state) :
  (pending_confirmations (on_dataUpdate e data s).2 = pending_confirmations s
   \/ pending_confirmations (on_dataUpdate e data s).2 = ∅)
  /\ (pending_confirmations (ack_timer_fires e s).2 = pending_confirmations s
      \/ exists c,
           ack_timer s = Some c
           /\ pending_confirmations (ack_timer_fires e s).2
              = {[ pc_token c := pc_amount c ]})
  /\ ((size (pending_confirmations s) <= 1)%nat ->
      (size (pending_confirmations (on_dataUpdate e data s).2) <= 1)%nat
      /\ (size (pending_confirmations (ack_timer_fires e s).2) <= 1)%nat).
Proof.
  assert (H1 : pending_confirmations (on_dataUpdate e data s).2 = pending_confirmations s
               \/ pending_confirmations (on_dataUpdate e data s).2 = ∅).
  { set (P := fun s' : state =>
           pending_confirmations s' = pending_confirmations s
           \/ pending_confirmations s' = ∅).
    assert (HP : keeps P (on_dataUpdate e data)).
    { apply keeps_on_dataUpdate.
      - intros s' H. exact H.
      - unfold handle_devicestatus. apply keeps_for_each. intros st _ s' Hs'.
        destruct (handle_status_pending e st s') as [E|E]; unfold P; rewrite E;
          [exact Hs' | right; reflexivity].
      - intros t. apply (keeps_of_preserves pending_confirmations
                           (fun p => p = pending_confirmations s \/ p = ∅)).
        apply handle_sgvs_pending.
      - apply (keeps_of_preserves pending_confirmations
                 (fun p => p = pending_confirmations s \/ p = ∅)).
        apply handle_treatments_pending. }
    apply HP. left. reflexivity. }
  assert (H2 : pending_confirmations (ack_timer_fires e s).2 = pending_confirmations s
               \/ exists c,
                    ack_timer s = Some c
                    /\ pending_confirmations (ack_timer_fires e s).2
                       = {[ pc_token c := pc_amount c ]}).
  { unfold ack_timer_fires, mbind, M_bind, bind, gets, modify.
    destruct (ack_timer s) as [c|] eqn:Ha; [| left; reflexivity].
    case_bool_decide; [| left; reflexivity].
    right. exists c. split; reflexivity. }
  split; [exact H1 |]. split; [exact H2 |].
  intros Hsize. split.
  - destruct H1 as [E|E]; rewrite E; [exact Hsize |]. rewrite map_size_empty. lia.
  - destruct H2 as [E|(c & _ & E)]; rewrite E; [exact Hsize |].
    rewrite map_size_singleton. lia.
Qed.

(** ** What an inbound event sends and writes *)

Lemma on_dataUpdate_emitted e data : preserves emitted (on_dataUpdate e data).
Proof. unfold on_dataUpdate. frame. Qed.

(** X7: handling an inbound event sends nothing to the transport, also
    when it executes a bolus or fails; the acknowledgment of a bolus
    request is sent by its timer, as one message for the call the timer
    holds. *)
Theorem inbound_event_sends_nothing (e : env) (data : update) (s : state) :
  emitted (on_dataUpdate e data s).2 = emitted s
  /\ (emitted (ack_timer_fires e s).2 = emitted s
      \/ exists c, ack_timer s = Some c
                   /\ (pc_due c <= time e)%Qc
                   /\ emitted (ack_timer_fires e s).2
                      = emitted s ++ [DbAddStatus (bolusack (pc_token c) (pc_amount c))]).
Proof.
  split; [apply on_dataUpdate_emitted |].
  unfold ack_timer_fires, mbind, M_bind, bind, gets, modify.
  destruct (ack_timer s) as [c|] eqn:Ha; [| left; reflexivity].
  case_bool_decide as Hdue; [| left; reflexivity].
  right. exists c. split; [reflexivity |]. split; [exact Hdue | reflexivity].
Qed.

Lemma write_treatment_json_written e f l s0 :
  f ∈ written_files ->
  keeps (fun s => forall name, name ∈ write_log s ->
                               name ∈ write_log s0 \/ name ∈ written_files)
    (write_treatment_json e f l).
Proof.
  intros Hf s Hs. destruct l as [|t rest]; [exact Hs |].
  rewrite write_treatment_json_cons.
  destruct (dsub "mills" t) as [ex|d]; [exact Hs |].
  destruct (div_millis d) as [ex|q]; [exact Hs |].
  destruct (isoformat e q) as [ex|txt]; simpl; intros name Hn;
    apply elem_of_app in Hn as [Hn|Hn]; try (apply Hs; exact Hn);
    apply list_elem_of_singleton in Hn; subst name; right; exact Hf.
Qed.

Lemma write_glucose_json_written e l s0 :
  keeps (fun s => forall name, name ∈ write_log s ->
                               name ∈ write_log s0 \/ name ∈ written_files)
    (write_glucose_json e l).
Proof.
  intros s Hs. destruct l as [|t rest]; [exact Hs |].
  rewrite write_glucose_json_cons.
  destruct (dsub "date" t) as [ex|d]; [exact Hs |].
  destruct (div_millis d) as [ex|q]; [exact Hs |].
  destruct (isoformat e q) as [ex|txt]; simpl; intros name Hn;
    apply elem_of_app in Hn as [Hn|Hn]; try (apply Hs; exact Hn);
    apply list_elem_of_singleton in Hn; subst name; right;
    apply list_elem_of_here.
Qed.

Lemma handle_devicestatus_write_log e data :
  preserves write_log (handle_devicestatus e data).
Proof. frame. Qed.

Lemma handle_treatment_write_log t : preserves write_log (handle_treatment t).
Proof. frame. Qed.

(** X8: the files written while an inbound event is handled are among
    monitor/glucose.json, settings/temptargets.json and
    monitor/carbhistory.json, and the change notification of each of them
    invokes the meal report or the settings report only: the handlers'
    own writes never cause a push to the transport through the status
    snapshot or the treatment reconciliation. *)
Theorem own_writes_never_trigger_a_push
  (e : env) (data : update) (s : state) (name : string) :
  name ∈ write_log (on_dataUpdate e data s).2 ->
  name ∈ write_log s
  \/ (name ∈ written_files
      /\ forall tr, tr ∈ on_modified (observed name) "modified" ->
                    tr = InvokeMealJson \/ tr = InvokeSettingsProfileJson).
Proof.
  intros Hname.
  set (P := fun s' : state =>
         forall name, name ∈ write_log s' -> name ∈ write_log s \/ name ∈ written_files).
  assert (HP : keeps P (on_dataUpdate e data)).
  { apply keeps_on_dataUpdate.
    - intros s' H. exact H.
    - apply (keeps_of_preserves write_log
               (fun l => forall name, name ∈ l -> name ∈ write_log s \/ name ∈ written_files)).
      apply handle_devicestatus_write_log.
    - intros t. unfold handle_sgvs.
      apply keeps_bind.
      + apply (keeps_of_preserves write_log
                 (fun l => forall name, name ∈ l ->
                                        name ∈ write_log s \/ name ∈ written_files)).
        apply preserves_for_each. intros entry. apply append_entry_write_log.
      + intros _. apply keeps_bind; [apply keeps_gets |]. intros entries.
        apply write_glucose_json_written.
    - unfold handle_treatments.
      apply keeps_bind.
      + apply (keeps_of_preserves write_log
                 (fun l => forall name, name ∈ l ->
                                        name ∈ write_log s \/ name ∈ written_files)).
        apply preserves_for_each. intros t. apply handle_treatment_write_log.
      + intros _. apply keeps_bind.
        * unfold handle_temp_targets.
          apply keeps_bind; [apply keeps_gets |]. intros s'.
          apply keeps_bind; [apply keeps_lift |]. intros v.
          destruct (bool_decide _); [| apply keeps_ret].
          apply keeps_bind; [apply keeps_modify; intros s'' H; exact H |]. intros _.
          apply write_treatment_json_written.
          apply list_elem_of_further, list_elem_of_here.
        * intros _. unfold handle_meal_carbs.
          apply keeps_bind; [apply keeps_gets |]. intros v.
          apply keeps_bind; [apply keeps_gets |]. intros old.
          destruct (bool_decide _); [| apply keeps_ret].
          apply keeps_bind; [apply keeps_modify; intros s'' H; exact H |]. intros _.
          apply write_treatment_json_written.
          do 2 apply list_elem_of_further. apply list_elem_of_here. }
  destruct (HP s (fun n H => or_introl H) name Hname) as [H|H]; [left; exact H |].
  right. split; [exact H |].
  unfold written_files in H.
  repeat (apply elem_of_cons in H as [->|H]);
    [router_case; intros tr Htr; absurd_membership; subst tr;
     first [left; reflexivity | right; reflexivity] .. |].
  apply elem_of_nil in H. contradiction.
Qed.

Lemma own_writes_never_trigger_a_push_witness :
  "monitor/carbhistory.json"%string ∈ write_log carb_ingested
  /\ ("monitor/carbhistory.json"%string ∈ write_log init
      \/ ("monitor/carbhistory.json"%string ∈ written_files
          /\ forall tr,
               tr ∈ on_modified (observed "monitor/carbhistory.json") "modified" ->
               tr = InvokeMealJson \/ tr = InvokeSettingsProfileJson)).
Proof.
  assert (H : "monitor/carbhistory.json"%string ∈ write_log carb_ingested)
    by (vm_compute; apply list_elem_of_here).
  split; [exact H |].
  exact (own_writes_never_trigger_a_push (sample_env 1700000100)
           (cloud_batch [carb_correction]) init _ H).
Defined.

(** ** The treatment store *)

Lemma handle_treatment_upsert treatment s :
  is_remove treatment = false ->
  handle_treatment treatment s =
  match treatment !! "eventType" with
  | Some event_type =>
      (inr tt, set_treatments
                 (<[(event_type, timestamp_of treatment) := treatment]>
                    (websocket_treatments s)) s)
  | None => (inl KeyError, s)
  end.
Proof.
  intros Hrm. unfold handle_treatment. rewrite Hrm.
  unfold mbind, M_bind, bind, lift, modify, dsub.
  destruct (treatment !! "eventType"); reflexivity.
Qed.

Lemma handle_treatment_remove treatment s :
  is_remove treatment = true ->
  handle_treatment treatment s =
  match select (same_id treatment) (store_values s) with
  | inl ex => (inl ex, s)
  | inr removed_treatments => for_each removed_treatments (remove_one treatment) s
  end.
Proof.
  intros Hrm. unfold handle_treatment. rewrite Hrm.
  unfold mbind, M_bind, bind, lift, gets, id.
  destruct (select (same_id treatment) (store_values s)); reflexivity.
Qed.

Lemma remove_one_eq treatment removed_treatment s :
  remove_one treatment removed_treatment s =
  match removed_treatment !! "eventType" with
  | Some event_type =>
      match websocket_treatments s !! (event_type, timestamp_of treatment) with
      | Some _ =>
          (inr tt, set_treatments
                     (delete (event_type, timestamp_of treatment)
                        (websocket_treatments s)) s)
      | None => (inr tt, s)
      end
  | None => (inr tt, s)
  end.
Proof.
  unfold remove_one, except_KeyError, del_treatment, mbind, M_bind, bind, lift, gets,
    modify, raise, dsub.
  destruct (removed_treatment !! "eventType") as [et|]; [| reflexivity].
  destruct (websocket_treatments s !! (et, timestamp_of treatment)); reflexivity.
Qed.

Lemma keyed_insert treatment event_type s :
  treatment !! "eventType" = Some event_type ->
  keyed s ->
  keyed (set_treatments
           (<[(event_type, timestamp_of treatment) := treatment]>
              (websocket_treatments s)) s).
Proof.
  intros He Hk k t. simpl. rewrite lookup_insert.
  case_decide as Hkey.
  - intros [= <-]. subst k. split; [| eexists; exact He].
    unfold derived_key, dget. rewrite He. reflexivity.
  - apply Hk.
Qed.

Lemma keyed_delete key s :
  keyed s -> keyed (set_treatments (delete key (websocket_treatments s)) s).
Proof.
  intros Hk k t. simpl. rewrite lookup_delete.
  case_decide; [discriminate | apply Hk].
Qed.

Lemma handle_treatment_keyed treatment : keeps keyed (handle_treatment treatment).
Proof.
  intros s Hk. destruct (is_remove treatment) eqn:Hrm.
  - rewrite (handle_treatment_remove _ _ Hrm).
    destruct (select (same_id treatment) (store_values s)) as [ex|removed]; [exact Hk |].
    revert s Hk. change (keeps keyed (for_each removed (remove_one treatment))).
    apply keeps_for_each. intros rt _ s Hk. rewrite remove_one_eq.
    destruct (rt !! "eventType") as [et|]; [| exact Hk].
    destruct (websocket_treatments s !! (et, timestamp_of treatment)); [| exact Hk].
    apply keyed_delete. exact Hk.
  - rewrite (handle_treatment_upsert _ _ Hrm).
    destruct (treatment !! "eventType") as [et|] eqn:He; [| exact Hk].
    apply keyed_insert; assumption.
Qed.

Lemma handle_devicestatus_store e data :
  preserves websocket_treatments (handle_devicestatus e data).
Proof. frame. Qed.

Lemma handle_sgvs_store e data t : preserves websocket_treatments (handle_sgvs e data t).
Proof. frame. Qed.

Lemma handle_temp_targets_store e : preserves websocket_treatments (handle_temp_targets e).
Proof. frame. Qed.

Lemma handle_meal_carbs_store e : preserves websocket_treatments (handle_meal_carbs e).
Proof. frame. Qed.

(** X9: whatever an inbound event holds, and whether or not handling it
    fails, every treatment in the store afterwards has an eventType and
    sits under the key (eventType, timestamp or created_at) derived from
    it, provided this was so before. *)
Theorem store_keys_are_derived_from_the_treatments
  (e : env) (data : update) (s : state) :
  keyed s -> keyed (on_dataUpdate e data s).2.
Proof.
  revert s. change (keeps keyed (on_dataUpdate e data)).
  apply keeps_on_dataUpdate.
  - intros s H. exact H.
  - apply (keeps_of_preserves websocket_treatments
             (fun m => forall k t, m !! k = Some t ->
                                   k = derived_key t /\ is_Some (t !! "eventType"))).
    apply handle_devicestatus_store.
  - intros t.
    apply (keeps_of_preserves websocket_treatments
             (fun m => forall k t, m !! k = Some t ->
                                   k = derived_key t /\ is_Some (t !! "eventType"))).
    apply handle_sgvs_store.
  - unfold handle_treatments. apply keeps_bind.
    + apply keeps_for_each. intros t _. apply handle_treatment_keyed.
    + intros _. apply keeps_bind.
      * apply (keeps_of_preserves websocket_treatments
                 (fun m => forall k t, m !! k = Some t ->
                                       k = derived_key t /\ is_Some (t !! "eventType"))).
        apply handle_temp_targets_store.
      * intros _.
        apply (keeps_of_preserves websocket_treatments
                 (fun m => forall k t, m !! k = Some t ->
                                       k = derived_key t /\ is_Some (t !! "eventType"))).
        apply handle_meal_carbs_store.
Qed.

Lemma store_keys_are_derived_from_the_treatments_witness :
  keyed init
  /\ websocket_treatments carb_ingested !! (VStr "Carb Correction", VInt 1000)
     = Some carb_correction
  /\ keyed carb_ingested.
Proof.
  assert (H : keyed init).
  { intros k t Hk. cbn [websocket_treatments init] in Hk.
    rewrite lookup_empty in Hk. discriminate Hk. }
  split; [exact H |]. split; [vm_compute; reflexivity |].
  exact (store_keys_are_derived_from_the_treatments (sample_env 1700000100)
           (cloud_batch [carb_correction]) init H).
Defined.

(** X10: once the cloud has pushed a treatment, it can be looked up
    under its eventType and timestamp, and the local ingestion of a
    record with the same eventType and timestamp pushes nothing and
    changes nothing. *)
Theorem cloud_treatment_is_not_pushed_again
  (e : env) (treatment local : dict) (event_type timestamp : value) (s : state) :
  is_remove treatment = false ->
  treatment !! "eventType" = Some event_type ->
  treatment !! "timestamp" = Some timestamp ->
  local !! "eventType" = Some event_type ->
  local !! "timestamp" = Some timestamp ->
  (handle_treatment treatment s).1 = inr tt
  /\ websocket_treatments (handle_treatment treatment s).2 !! (event_type, timestamp)
     = Some treatment
  /\ (forall k, k <> (event_type, timestamp) ->
      websocket_treatments (handle_treatment treatment s).2 !! k
      = websocket_treatments s !! k)
  /\ reconcile_treatment e local (handle_treatment treatment s).2
     = (inr tt, (handle_treatment treatment s).2).
Proof.
  intros Hrm He Ht Hle Hlt.
  rewrite (handle_treatment_upsert _ _ Hrm), He.
  assert (Hts : timestamp_of treatment = timestamp).
  { unfold timestamp_of. rewrite Ht. reflexivity. }
  rewrite Hts. simpl.
  split; [reflexivity |]. split; [apply lookup_insert_eq |].
  split; [intros k Hk; apply lookup_insert_ne; congruence |].
  unfold reconcile_treatment, mbind, M_bind, bind, lift, gets, dsub.
  rewrite Hle, Hlt. simpl. rewrite lookup_insert_eq. reflexivity.
Qed.

Lemma cloud_treatment_is_not_pushed_again_witness :
  is_remove carb_correction = false
  /\ reconcile_treatment (sample_env 1700000100)
       (<["timestamp" := VInt 1000]> local_carbs)
       (handle_treatment carb_correction init).2
     = (inr tt, (handle_treatment carb_correction init).2).
Proof.
  assert (H1 : is_remove carb_correction = false) by (vm_compute; reflexivity).
  split; [exact H1 |].
  refine (proj2 (proj2 (proj2 (cloud_treatment_is_not_pushed_again
            (sample_env 1700000100) carb_correction
            (<["timestamp" := VInt 1000]> local_carbs)
            (VStr "Carb Correction") (VInt 1000) init H1 _ _ _ _))));
    vm_compute; reflexivity.
Defined.

(** ** Removal *)

Lemma select_ok {A} (p : A -> exn + bool) (b : A -> bool) l :
  (forall x, x ∈ l -> p x = inr (b x)) ->
  select p l = inr (filter (fun x => b x = true) l).
Proof.
  induction l as [|x l IH]; intros H; simpl.
  - reflexivity.
  - rewrite (H x) by apply list_elem_of_here.
    rewrite IH by (intros y Hy; apply H; apply list_elem_of_further; exact Hy).
    destruct (b x) eqn:Hb.
    + rewrite filter_cons_True by exact Hb. reflexivity.
    + rewrite filter_cons_False by (rewrite Hb; discriminate). reflexivity.
Qed.

Lemma select_same_id_raises treatment l :
  (exists x, x ∈ l /\ x !! "_id" = None) ->
  select (same_id treatment) l = inl KeyError.
Proof.
  induction l as [|y l IH]; intros (x & Hx & Hid).
  - apply elem_of_nil in Hx. contradiction.
  - simpl. unfold same_id at 1. unfold dsub.
    destruct (y !! "_id") as [a|] eqn:Hy; [| reflexivity].
    destruct (treatment !! "_id") as [b|]; [| reflexivity].
    apply elem_of_cons in Hx as [->|Hx]; [rewrite Hid in Hy; discriminate Hy |].
    rewrite IH by (exists x; split; assumption). reflexivity.
Qed.

Lemma store_values_elem s t :
  t ∈ store_values s <-> exists k, websocket_treatments s !! k = Some t.
Proof.
  unfold store_values. rewrite list_elem_of_fmap. split.
  - intros ([k t'] & -> & Hin). exists k. apply elem_of_map_to_list. exact Hin.
  - intros [k Hk]. exists (k, t). split; [reflexivity |].
    apply elem_of_map_to_list. exact Hk.
Qed.

(** The deletions of a removal never fail and never add: an absent key
    stays absent, and the key of each treated record is absent at the
    end. *)
Lemma remove_loop treatment removed :
  forall s,
  exists s',
    for_each removed (remove_one treatment) s = (inr tt, s')
    /\ (forall k, websocket_treatments s !! k = None ->
                  websocket_treatments s' !! k = None)
    /\ (forall rt event_type,
          rt ∈ removed -> rt !! "eventType" = Some event_type ->
          websocket_treatments s' !! (event_type, timestamp_of treatment) = None).
Proof.
  induction removed as [|x removed IH]; intros s.
  - exists s. split; [reflexivity |]. split; [intros k H; exact H |].
    intros rt et Hin. apply elem_of_nil in Hin. contradiction.
  - assert (Hx : exists s1,
               remove_one treatment x s = (inr tt, s1)
               /\ (forall k, websocket_treatments s !! k = None ->
                             websocket_treatments s1 !! k = None)
               /\ (forall et, x !! "eventType" = Some et ->
                     websocket_treatments s1 !! (et, timestamp_of treatment) = None)).
    { rewrite remove_one_eq.
      destruct (x !! "eventType") as [et|] eqn:He.
      - destruct (websocket_treatments s !! (et, timestamp_of treatment)) eqn:Hl.
        + eexists. split; [reflexivity |]. split.
          * intros k Hk. simpl. rewrite lookup_delete. case_decide; [reflexivity | exact Hk].
          * intros et' [= <-]. simpl. apply lookup_delete_eq.
        + exists s. split; [reflexivity |]. split; [intros k H; exact H |].
          intros et' [= <-]. exact Hl.
      - exists s. split; [reflexivity |]. split; [intros k H; exact H |].
        intros et' N. discriminate N. }
    destruct Hx as (s1 & E1 & Hkeep1 & Hgone1).
    destruct (IH s1) as (s' & E & Hkeep & Hgone).
    exists s'. split; [| split].
    + simpl. unfold mbind, M_bind, bind. rewrite E1. exact E.
    + intros k Hk. apply Hkeep, Hkeep1, Hk.
    + intros rt et Hin He. apply elem_of_cons in Hin as [->|Hin].
      * apply Hkeep. apply Hgone1. exact He.
      * apply (Hgone rt et Hin He).
Qed.

(** X11: a remove record does delete a stored treatment of the same id
    when its own time stamp (timestamp, else created_at) is the one of
    the stored key, provided every stored treatment has an id: the key is
    absent afterwards, no other key is added, and no exception is
    raised. *)
Theorem remove_with_the_stored_timestamp_deletes
  (treatment stored : dict) (id event_type : value) (s : state) :
  is_remove treatment = true ->
  treatment !! "_id" = Some id ->
  (forall k t, websocket_treatments s !! k = Some t -> is_Some (t !! "_id")) ->
  websocket_treatments s !! (event_type, timestamp_of treatment) = Some stored ->
  stored !! "_id" = Some id ->
  stored !! "eventType" = Some event_type ->
  exists s',
    handle_treatment treatment s = (inr tt, s')
    /\ websocket_treatments s' !! (event_type, timestamp_of treatment) = None
    /\ (forall k, websocket_treatments s !! k = None ->
                  websocket_treatments s' !! k = None).
Proof.
  intros Hrm Hid Hall Hstored Hsid Het.
  rewrite (handle_treatment_remove _ _ Hrm).
  rewrite (select_ok (same_id treatment)
             (fun rt => bool_decide (rt !! "_id" = Some id))).
  2:{ intros rt Hrt. apply store_values_elem in Hrt as [k Hk].
      destruct (Hall k rt Hk) as [a Ha].
      unfold same_id, dsub. rewrite Ha, Hid. f_equal.
      apply bool_decide_ext. split; congruence. }
  destruct (remove_loop treatment
              (filter (fun rt => bool_decide (rt !! "_id" = Some id) = true)
                 (store_values s)) s) as (s' & E & Hkeep & Hgone).
  exists s'. split; [exact E |]. split; [| exact Hkeep].
  apply (Hgone stored event_type); [| exact Het].
  apply list_elem_of_filter. split.
  - apply bool_decide_eq_true_2. exact Hsid.
  - apply store_values_elem. eexists. exact Hstored.
Qed.

Lemma remove_with_the_stored_timestamp_deletes_witness :
  is_remove (<["timestamp" := VInt 1000]> remove_abc) = true
  /\ exists s',
       handle_treatment (<["timestamp" := VInt 1000]> remove_abc) carb_stored
       = (inr tt, s')
       /\ websocket_treatments s' !! (VStr "Carb Correction", VInt 1000) = None.
Proof.
  assert (H1 : is_remove (<["timestamp" := VInt 1000]> remove_abc) = true)
    by (vm_compute; reflexivity).
  split; [exact H1 |].
  destruct (remove_with_the_stored_timestamp_deletes
              (<["timestamp" := VInt 1000]> remove_abc) carb_correction
              (VStr "abc") (VStr "Carb Correction") carb_stored H1)
    as (s' & E & Hgone & _).
  - vm_compute. reflexivity.
  - intros k t Hk. cbn [websocket_treatments carb_stored set_treatments] in Hk.
    apply lookup_singleton_Some in Hk as [_ <-]. eexists. vm_compute. reflexivity.
  - vm_compute. reflexivity.
  - vm_compute. reflexivity.
  - vm_compute. reflexivity.
  - exists s'. split; [exact E | exact Hgone].
Defined.

(** X12: when some stored treatment has no id, every remove record
    raises [KeyError] before anything is deleted, and the inbound event
    that carries it ends the session with the store as it was. *)
Theorem remove_fails_when_a_stored_treatment_has_no_id
  (e : env) (treatment unidentified : dict) (k : value * value)
  (rest : list dict) (s : state) :
  is_remove treatment = true ->
  websocket_treatments s !! k = Some unidentified ->
  unidentified !! "_id" = None ->
  handle_treatment treatment s = (inl KeyError, s)
  /\ on_dataUpdate e (cloud_batch (treatment :: rest)) s
     = (inl SystemExit, set_wait_count 0 s).
Proof.
  intros Hrm Hk Hid.
  assert (E : forall s', websocket_treatments s' = websocket_treatments s ->
                         handle_treatment treatment s' = (inl KeyError, s')).
  { intros s' Hs'. rewrite (handle_treatment_remove _ _ Hrm).
    rewrite select_same_id_raises; [reflexivity |].
    exists unidentified. split; [| exact Hid].
    apply store_values_elem. exists k. rewrite Hs'. exact Hk. }
  split; [apply E; reflexivity |].
  rewrite on_dataUpdate_treatments_eq. unfold except_exit, handle_treatments.
  change (default [] (u_treatments (cloud_batch (treatment :: rest))))
    with (treatment :: rest).
  simpl for_each. unfold mbind, M_bind, bind.
  rewrite (E (set_wait_count 0 s) eq_refl). reflexivity.
Qed.

Lemma remove_fails_when_a_stored_treatment_has_no_id_witness :
  is_remove remove_abc = true
  /\ on_dataUpdate (sample_env 1700000100) (cloud_batch (remove_abc :: []))
       (set_treatments {[ (VStr "Note", VInt 7) := delete "_id" carb_correction ]} init)
     = (inl SystemExit,
        set_wait_count 0
          (set_treatments {[ (VStr "Note", VInt 7) := delete "_id" carb_correction ]}
             init)).
Proof.
  assert (H1 : is_remove remove_abc = true) by (vm_compute; reflexivity).
  split; [exact H1 |].
  refine (proj2 (remove_fails_when_a_stored_treatment_has_no_id
                   (sample_env 1700000100) remove_abc (delete "_id" carb_correction)
                   (VStr "Note", VInt 7) []
                   (set_treatments
                      {[ (VStr "Note", VInt 7) := delete "_id" carb_correction ]} init)
                   H1 _ _)).
  - cbn [websocket_treatments set_treatments]. apply lookup_singleton_eq.
  - apply lookup_delete_eq.
Defined.

(** X13: a cloud batch changes the store only under keys whose time
    stamp is the time stamp (timestamp, else created_at) of one of its
    records: a key with any other time stamp holds afterwards what it
    held before, whether the records insert or remove and whether or not
    the handling fails. *)
Theorem batch_touches_only_its_own_timestamps
  (e : env) (data : update) (event_type timestamp : value) (s : state) :
  (forall t, t ∈ default [] (u_treatments data) -> timestamp_of t <> timestamp) ->
  websocket_treatments (on_dataUpdate e data s).2 !! (event_type, timestamp)
  = websocket_treatments s !! (event_type, timestamp).
Proof.
  intros Hts.
  set (P := fun s' : state =>
         websocket_treatments s' !! (event_type, timestamp)
         = websocket_treatments s !! (event_type, timestamp)).
  assert (HP : keeps P (on_dataUpdate e data)).
  { apply keeps_on_dataUpdate.
    - intros s' H. exact H.
    - apply (keeps_of_preserves websocket_treatments
               (fun m => m !! (event_type, timestamp)
                         = websocket_treatments s !! (event_type, timestamp))).
      apply handle_devicestatus_store.
    - intros t.
      apply (keeps_of_preserves websocket_treatments
               (fun m => m !! (event_type, timestamp)
                         = websocket_treatments s !! (event_type, timestamp))).
      apply handle_sgvs_store.
    - unfold handle_treatments. apply keeps_bind.
      + apply keeps_for_each. intros t Ht s' Hs'. unfold P in *.
        rewrite <- Hs'. destruct (is_remove t) eqn:Hrm.
        * apply remove_spares_other_timestamps; [exact Hrm | apply Hts; exact Ht].
        * rewrite (handle_treatment_upsert _ _ Hrm).
          destruct (t !! "eventType") as [et|]; [| reflexivity].
          simpl. apply lookup_insert_ne. intros N. injection N as _ N.
          apply (Hts t Ht). exact N.
      + intros _. apply keeps_bind.
        * apply (keeps_of_preserves websocket_treatments
                   (fun m => m !! (event_type, timestamp)
                             = websocket_treatments s !! (event_type, timestamp))).
          apply handle_temp_targets_store.
        * intros _.
          apply (keeps_of_preserves websocket_treatments
                   (fun m => m !! (event_type, timestamp)
                             = websocket_treatments s !! (event_type, timestamp))).
          apply handle_meal_carbs_store. }
  apply HP. reflexivity.
Qed.

Lemma batch_touches_only_its_own_timestamps_witness :
  (forall t, t ∈ default [] (u_treatments (cloud_batch [remove_abc_2000])) ->
             timestamp_of t <> VInt 1000)
  /\ websocket_treatments
       (on_dataUpdate (sample_env 1700000100) (cloud_batch [remove_abc_2000])
          carb_ingested).2 !! (VStr "Carb Correction", VInt 1000)
     = websocket_treatments carb_ingested !! (VStr "Carb Correction", VInt 1000).
Proof.
  assert (H : forall t, t ∈ default [] (u_treatments (cloud_batch [remove_abc_2000])) ->
                        timestamp_of t <> VInt 1000).
  { intros t Ht. apply list_elem_of_singleton in Ht. subst t. intros N.
    apply (f_equal (fun v => bool_decide (v = VInt 1000))) in N.
    vm_compute in N. discriminate N. }
  split; [exact H |].
  exact (batch_touches_only_its_own_timestamps (sample_env 1700000100)
           (cloud_batch [remove_abc_2000]) (VStr "Carb Correction") (VInt 1000)
           carb_ingested H).
Defined.

(** ** Re-ingestion *)

Lemma set_treatments_id s : set_treatments (websocket_treatments s) s = s.
Proof. destruct s. reflexivity. Qed.

Lemma set_wait_count_id s : set_wait_count (wait_count s) s = s.
Proof. destruct s. reflexivity. Qed.

Lemma upserts_snoc batch t m :
  upserts (batch ++ [t]) m = <[derived_key t := t]> (upserts batch m).
Proof. unfold upserts. rewrite foldl_app. reflexivity. Qed.

Lemma upserts_cons batch t m :
  upserts (t :: batch) m = upserts batch (<[derived_key t := t]> m).
Proof. reflexivity. Qed.

Lemma insert_upserts_insert batch k v m :
  <[k := v]> (upserts batch (<[k := v]> m)) = <[k := v]> (upserts batch m).
Proof.
  revert m. induction batch as [|u batch IH]; intros m.
  - simpl. apply insert_insert_eq.
  - rewrite !upserts_cons. destruct (decide (derived_key u = k)) as [<-|Hne].
    + rewrite insert_insert_eq. reflexivity.
    + rewrite (insert_insert_ne m) by exact Hne.
      apply IH.
Qed.

(** Upserting a batch a second time changes nothing. *)
Lemma upserts_idempotent batch m : upserts batch (upserts batch m) = upserts batch m.
Proof.
  induction batch as [|t batch IH] using rev_ind.
  - reflexivity.
  - rewrite !upserts_snoc, insert_upserts_insert, IH. reflexivity.
Qed.

Lemma for_each_upserts batch :
  Forall (fun t => is_remove t = false) batch ->
  forall s s',
  for_each batch handle_treatment s = (inr tt, s') ->
  s' = set_treatments (upserts batch (websocket_treatments s)) s
  /\ forall s2, for_each batch handle_treatment s2
                = (inr tt, set_treatments (upserts batch (websocket_treatments s2)) s2).
Proof.
  induction 1 as [|t batch Hrm Hb IH]; intros s s' Hrun.
  - simpl in Hrun. injection Hrun as <-. split.
    + symmetry. apply set_treatments_id.
    + intros s2. simpl. rewrite set_treatments_id. reflexivity.
  - simpl in Hrun. unfold mbind, M_bind, bind in Hrun.
    rewrite (handle_treatment_upsert _ _ Hrm) in Hrun.
    destruct (t !! "eventType") as [et|] eqn:He; [| discriminate Hrun].
    destruct (IH _ _ Hrun) as [Hs' Hall].
    assert (Hkey : (et, timestamp_of t) = derived_key t).
    { unfold derived_key, dget. rewrite He. reflexivity. }
    split.
    + rewrite upserts_cons, <- Hkey. exact Hs'.
    + intros s2. cbn [for_each]. unfold mbind, M_bind, bind.
      rewrite (handle_treatment_upsert _ _ Hrm), He, Hall.
      rewrite upserts_cons, <- Hkey. reflexivity.
Qed.

Lemma temp_targets_view_store e s s' :
  websocket_treatments s = websocket_treatments s' ->
  temp_targets_view e s = temp_targets_view e s'.
Proof. intros H. unfold temp_targets_view, store_values. rewrite H. reflexivity. Qed.

Lemma meal_carbs_view_store e s s' :
  websocket_treatments s = websocket_treatments s' ->
  meal_carbs_view e s = meal_carbs_view e s'.
Proof. intros H. unfold meal_carbs_view, store_values. rewrite H. reflexivity. Qed.

Lemma handle_meal_carbs_temp_targets e :
  preserves websocket_temp_targets (handle_meal_carbs e).
Proof. frame. Qed.

Lemma handle_temp_targets_wait_count e : preserves wait_count (handle_temp_targets e).
Proof. frame. Qed.

Lemma handle_meal_carbs_wait_count e : preserves wait_count (handle_meal_carbs e).
Proof. frame. Qed.

(** X14: handling a second time, at the same clock reading, a cloud
    batch without remove records that was handled successfully changes
    nothing at all: the store, the views kept in memory and the files are
    the same, and nothing is written. *)
Theorem reingesting_a_batch_changes_nothing
  (e : env) (batch : list dict) (s s1 : state) :
  Forall (fun t => is_remove t = false) batch ->
  on_dataUpdate e (cloud_batch batch) s = (inr tt, s1) ->
  on_dataUpdate e (cloud_batch batch) s1 = (inr tt, s1).
Proof.
  intros Hb Hrun.
  rewrite on_dataUpdate_treatments_eq in Hrun |- *.
  unfold except_exit, handle_treatments in Hrun |- *.
  change (default [] (u_treatments (cloud_batch batch))) with batch in Hrun |- *.
  unfold mbind, M_bind, bind in Hrun |- *.
  destruct (for_each batch handle_treatment (set_wait_count 0 s)) as [[ex|[]] sa] eqn:Ea;
    [discriminate Hrun |].
  destruct (for_each_upserts batch Hb _ _ Ea) as [Hsa Hall].
  pose proof (handle_temp_targets_store e sa) as Hst.
  pose proof (handle_temp_targets_wait_count e sa) as Hwt.
  destruct (temp_targets_view e sa) as [ex|v] eqn:Hv.
  { rewrite handle_temp_targets_eq, Hv in Hrun. discriminate Hrun. }
  pose proof (handle_temp_targets_kept e sa v Hv) as Hkt.
  destruct (handle_temp_targets e sa) as [[ex|[]] sb] eqn:Eb; [discriminate Hrun |].
  simpl in Hst, Hwt, Hkt.
  pose proof (handle_meal_carbs_store e sb) as Hsm.
  pose proof (handle_meal_carbs_wait_count e sb) as Hwm.
  pose proof (handle_meal_carbs_temp_targets e sb) as Htm.
  pose proof (handle_meal_carbs_kept e sb) as Hkm.
  destruct (handle_meal_carbs e sb) as [[ex|[]] sc] eqn:Ec; [discriminate Hrun |].
  injection Hrun as ->. simpl in Hsm, Hwm, Htm, Hkm.
  assert (Hw1 : wait_count s1 = 0).
  { rewrite Hwm, Hwt, Hsa. reflexivity. }
  assert (Hs1 : websocket_treatments s1 = upserts batch (websocket_treatments s)).
  { rewrite Hsm, Hst, Hsa. reflexivity. }
  assert (E0 : set_wait_count 0 s1 = s1).
  { rewrite <- Hw1 at 1. apply set_wait_count_id. }
  rewrite E0, (Hall s1), Hs1, upserts_idempotent, <- Hs1, set_treatments_id.
  assert (Hv1 : temp_targets_view e s1 = inr v).
  { rewrite <- Hv. apply temp_targets_view_store. rewrite Hsm, Hst. reflexivity. }
  rewrite handle_temp_targets_eq, Hv1, Htm, Hkt.
  rewrite bool_decide_eq_false_2 by (intros N; apply N; reflexivity).
  rewrite handle_meal_carbs_eq, Hkm.
  rewrite (meal_carbs_view_store e s1 sb) by exact Hsm.
  rewrite bool_decide_eq_false_2 by (intros N; apply N; reflexivity).
  reflexivity.
Qed.

Lemma reingesting_a_batch_changes_nothing_witness :
  Forall (fun t => is_remove t = false) [carb_correction]
  /\ on_dataUpdate (sample_env 1700000100) (cloud_batch [carb_correction]) init
     = (inr tt, carb_ingested)
  /\ on_dataUpdate (sample_env 1700000100) (cloud_batch [carb_correction]) carb_ingested
     = (inr tt, carb_ingested).
Proof.
  assert (H1 : Forall (fun t => is_remove t = false) [carb_correction])
    by (constructor; [vm_compute; reflexivity | constructor]).
  assert (H2 : on_dataUpdate (sample_env 1700000100) (cloud_batch [carb_correction]) init
               = (inr tt, carb_ingested)) by (vm_compute; reflexivity).
  split; [exact H1 |]. split; [exact H2 |].
  exact (reingesting_a_batch_changes_nothing (sample_env 1700000100) [carb_correction]
           init carb_ingested H1 H2).
Defined.

(** ** The glucose sequence *)

Lemma handle_devicestatus_entries e data :
  preserves websocket_entries (handle_devicestatus e data).
Proof. frame. Qed.

Lemma handle_treatments_entries e data :
  preserves websocket_entries (handle_treatments e data).
Proof. frame. Qed.

Lemma append_entry_grows e entry (old : list dict) :
  keeps (fun s => old `prefix_of` websocket_entries s
                  /\ (Forall (has_number "date") old ->
                      Forall (has_number "date") (websocket_entries s)))
    (append_entry e entry).
Proof.
  unfold append_entry.
  apply keeps_bind_lift. intros m Hm.
  apply keeps_bind_lift. intros secs Hsecs.
  apply keeps_bind; [apply keeps_lift |]. intros txt.
  apply keeps_modify. intros s [Hpre Hnum]. simpl. split.
  - apply prefix_app_r. exact Hpre.
  - intros Hold. apply Forall_app. split; [apply Hnum; exact Hold |].
    constructor; [| constructor].
    destruct m as [|q|t]; try discriminate Hsecs.
    exists q. rewrite normalize_date. unfold dget, dsub in *.
    destruct (entry !! "mills"); [| discriminate Hm]. injection Hm as ->. reflexivity.
Qed.

(** X15: the glucose sequence in memory only grows: after an inbound
    event, handled to the end or not, it starts with the sequence before;
    and if every entry had a numeric date before, every entry has one
    afterwards. *)
Theorem glucose_entries_only_grow (e : env) (data : update) (s : state) :
  websocket_entries s `prefix_of` websocket_entries (on_dataUpdate e data s).2
  /\ (Forall (has_number "date") (websocket_entries s) ->
      Forall (has_number "date") (websocket_entries (on_dataUpdate e data s).2)).
Proof.
  set (Q := fun l : list dict =>
         websocket_entries s `prefix_of` l
         /\ (Forall (has_number "date") (websocket_entries s) ->
             Forall (has_number "date") l)).
  assert (HP : keeps (fun s' => Q (websocket_entries s')) (on_dataUpdate e data)).
  { apply keeps_on_dataUpdate.
    - intros s' H. exact H.
    - apply (keeps_of_preserves websocket_entries Q), handle_devicestatus_entries.
    - intros t. unfold handle_sgvs. apply keeps_bind.
      + apply keeps_for_each. intros entry _. apply append_entry_grows.
      + intros _. apply keeps_bind; [apply keeps_gets |]. intros entries.
        apply (keeps_of_preserves websocket_entries Q), write_glucose_json_entries.
    - apply (keeps_of_preserves websocket_entries Q), handle_treatments_entries. }
  apply HP. split; [reflexivity | intros H; exact H].
Qed.

Lemma threshold_24_hours e :
  timestamp_hours_ago e 24 = (time e - QcZ 86400000)%Qc.
Proof.
  unfold timestamp_hours_ago.
  assert (E : (QcZ 24 * QcZ 60 * QcZ 60 * MILLIS_PER_SECOND)%Qc = QcZ 86400000)
    by (apply Qc_is_canon; vm_compute; reflexivity).
  rewrite E. reflexivity.
Qed.

(** X16: with the threshold that [on_dataUpdate] computes, an entry with
    a numeric date is in the glucose window exactly when its date is
    greater than the clock reading minus 86400000, the clock reading
    being in seconds and the date in milliseconds; in particular no entry
    whose date is at least the clock reading is ever left out. *)
Theorem window_threshold_mixes_seconds_and_milliseconds
  (e : env) (entries : list dict) (entry : dict) (q : Qc) :
  entry !! "date" = Some (VNum q) ->
  (entry ∈ glucose_window (timestamp_hours_ago e 24) entries
   <-> entry ∈ entries /\ (time e - QcZ 86400000 < q)%Qc)
  /\ (entry ∈ entries -> (time e <= q)%Qc ->
      entry ∈ glucose_window (timestamp_hours_ago e 24) entries).
Proof.
  intros Hq.
  assert (Hiff : entry ∈ glucose_window (timestamp_hours_ago e 24) entries
                 <-> entry ∈ entries /\ (time e - QcZ 86400000 < q)%Qc).
  { unfold glucose_window.
    rewrite (elem_of_Permutation_proper _ _ _ (sort_desc_perm _ _)).
    rewrite list_elem_of_filter. unfold py_gt, dget. rewrite Hq. simpl.
    rewrite py_lt_num, threshold_24_hours. tauto. }
  split; [exact Hiff |].
  intros Hin Hle. apply Hiff. split; [exact Hin |].
  apply (Qclt_le_trans _ (time e)); [| exact Hle].
  apply Qclt_minus_iff.
  assert (E : (time e + - (time e - QcZ 86400000) = QcZ 86400000)%Qc) by ring.
  rewrite E. vm_compute. reflexivity.
Qed.

Lemma window_threshold_mixes_seconds_and_milliseconds_witness :
  normalize (sgv 1699827200000 120) "2017-01-01T00:00:00" !! "date"
  = Some (VNum (QcZ 1699827200000))
  /\ ~ within_24_hours (QcZ 1700000000) (QcZ 1699827200000)
  /\ normalize (sgv 1699827200000 120) "2017-01-01T00:00:00"
     ∈ glucose_window (timestamp_hours_ago (sample_env 1700000000) 24)
         [normalize (sgv 1699827200000 120) "2017-01-01T00:00:00"].
Proof.
  assert (H1 : normalize (sgv 1699827200000 120) "2017-01-01T00:00:00" !! "date"
               = Some (VNum (QcZ 1699827200000))) by (vm_compute; reflexivity).
  split; [exact H1 |].
  split; [intros H; vm_compute in H; discriminate H |].
  apply (proj2 (window_threshold_mixes_seconds_and_milliseconds
                  (sample_env 1700000000)
                  [normalize (sgv 1699827200000 120) "2017-01-01T00:00:00"]
                  _ _ H1)).
  - apply list_elem_of_here.
  - vm_compute. discriminate.
Defined.

(** ** Amounts that are not numbers *)

(** X17: a bolus record addressed to this device whose amount matches
    the table but is not a number empties the table and raises
    [TypeError] without a bolus; and a record whose amount is [None],
    when the table has no entry under its key, is taken for a match and
    raises [KeyError].  In both cases the event that carries the record
    ends the session and nothing is acknowledged. *)
Theorem non_numeric_amount_ends_the_session
  (e : env) (st : status) (bolus : dict) (device amount : value) (confirmation : Z)
  (rest : list status) (s : state) :
  st !! "bolus" = Some (Obj bolus) ->
  bolus !! "units" = Some amount ->
  bolus !! "target" = Some my_id ->
  st !! "device" = Some (Atom device) ->
  py_int (default (VInt 0) (bolus !! "confirmation")) = inr confirmation ->
  (forall q, amount <> VNum q) ->
  (pending_confirmations s !! (device, confirmation) = Some amount ->
   handle_status e st s = (inl TypeError, set_pending ∅ s)
   /\ on_dataUpdate e (status_batch (st :: rest)) s
      = (inl SystemExit, set_pending ∅ (set_wait_count 0 s)))
  /\ (amount = VNone ->
      pending_confirmations s !! (device, confirmation) = None ->
      handle_status e st s = (inl KeyError, s)
      /\ on_dataUpdate e (status_batch (st :: rest)) s
         = (inl SystemExit, set_wait_count 0 s)).
Proof.
  intros Hb Hu Ht Hd Hc Hnum.
  assert (E : forall s', handle_status e st s' =
              if bool_decide (default VNone (pending_confirmations s' !! (device, confirmation))
                              = amount)
              then match pending_confirmations s' !! (device, confirmation) with
                   | Some _ =>
                       perform_bolus amount
                         (set_pending (delete (device, confirmation)
                                         (pending_confirmations s')) s')
                   | None => (inl KeyError, s')
                   end
              else ack_bolus_request e (device, Qc_trunc (time e)) amount s').
  { intros s'. apply (handle_status_eq e st bolus device confirmation amount s');
      assumption. }
  assert (Hrun : forall r s1,
            handle_status e st (set_wait_count 0 s) = (inl r, s1) ->
            on_dataUpdate e (status_batch (st :: rest)) s = (inl SystemExit, s1)).
  { intros r s1 H. rewrite on_dataUpdate_devicestatus_eq.
    unfold except_exit, handle_devicestatus.
    change (default [] (u_devicestatus (status_batch (st :: rest)))) with (st :: rest).
    cbn [for_each]. unfold mbind, M_bind, bind. rewrite H. reflexivity. }
  split.
  - intros Hp.
    assert (Hs : forall s', pending_confirmations s' = pending_confirmations s ->
                            handle_status e st s' = (inl TypeError, set_pending ∅ s')).
    { intros s' Hs'. rewrite E, Hs', Hp.
      case_bool_decide as Heq; [| exfalso; apply Heq; reflexivity].
      unfold perform_bolus, mbind, M_bind, bind, modify, raise.
      destruct amount as [|q|t]; [reflexivity | exfalso; apply (Hnum q); reflexivity
                                 | reflexivity]. }
    split; [apply Hs; reflexivity |].
    apply (Hrun TypeError). apply Hs. reflexivity.
  - intros -> Hp.
    assert (Hs : forall s', pending_confirmations s' = pending_confirmations s ->
                            handle_status e st s' = (inl KeyError, s')).
    { intros s' Hs'. rewrite E, Hs', Hp.
      case_bool_decide as Heq; [reflexivity | exfalso; apply Heq; reflexivity]. }
    split; [apply Hs; reflexivity |].
    apply (Hrun KeyError). apply Hs. reflexivity.
Qed.

Lemma non_numeric_amount_ends_the_session_witness :
  pending_confirmations init !! (VStr "phone", 0) = None
  /\ on_dataUpdate (sample_env 100)
       (status_batch
          (list_to_map
             [ ("device", Atom (VStr "phone"));
               ("bolus", Obj (list_to_map [ ("units", VNone); ("target", my_id) ])) ]
           :: [])) init
     = (inl SystemExit, set_wait_count 0 init).
Proof.
  assert (Hp : pending_confirmations init !! (VStr "phone", 0) = None) by reflexivity.
  split; [exact Hp |].
  refine (proj2 (proj2 (non_numeric_amount_ends_the_session (sample_env 100)
            (list_to_map
               [ ("device", Atom (VStr "phone"));
                 ("bolus", Obj (list_to_map [ ("units", VNone); ("target", my_id) ])) ])
            (list_to_map [ ("units", VNone); ("target", my_id) ])
            (VStr "phone") VNone 0 [] init _ _ _ _ _ _) eq_refl Hp));
    try (vm_compute; reflexivity).
  intros q N. discriminate N.
Defined.

(** ** The session loop *)

Lemma dispatch_ok_resets n s s' :
  dispatch n s = (inr tt, s') -> wait_count s' = 0.
Proof.
  destruct n as [e data| | |]; simpl; intros H; try discriminate H.
  pose proof (on_dataUpdate_wait_count e data s) as Hw. rewrite H in Hw. exact Hw.
Qed.

Lemma handled_cycle_resets c :
  forall s s', c <> [] -> for_each c dispatch s = (inr tt, s') -> wait_count s' = 0.
Proof.
  induction c as [|n c IH]; intros s s' Hne Hrun; [contradiction |].
  simpl in Hrun. unfold mbind, M_bind, bind in Hrun.
  destruct (dispatch n s) as [[ex|[]] s1] eqn:E; [discriminate Hrun |].
  destruct c as [|n' c'].
  - simpl in Hrun. injection Hrun as <-. apply (dispatch_ok_resets n s). exact E.
  - apply (IH s1 s'); [discriminate | exact Hrun].
Qed.

(** X18: a cycle in which at least one notification was handled, and
    none ended the process, restarts the count: whatever the counter was,
    the loop goes on with a counter of 1. *)
Theorem handled_cycle_restarts_the_count
  (c : list notification) (rest : list (list notification)) (s s' : state) :
  wait_count s < 7 ->
  c <> [] ->
  for_each c dispatch s = (inr tt, s') ->
  wait_count s' = 0 /\ main (c :: rest) s = main rest (set_wait_count 1 s').
Proof.
  intros Hlt Hne Hrun.
  assert (Hw : wait_count s' = 0) by (apply (handled_cycle_resets c s); assumption).
  split; [exact Hw |].
  rewrite main_cons by exact Hlt. rewrite Hrun, Hw. reflexivity.
Qed.

Lemma handled_cycle_restarts_the_count_witness :
  wait_count (set_wait_count 6 init) < 7
  /\ main ([DataUpdate (sample_env 0) no_data] :: [[]; []]) (set_wait_count 6 init)
     = main [[]; []] (set_wait_count 1 (set_wait_count 0 init)).
Proof.
  assert (H1 : wait_count (set_wait_count 6 init) < 7) by (simpl; lia).
  split; [exact H1 |].
  refine (proj2 (handled_cycle_restarts_the_count [DataUpdate (sample_env 0) no_data]
                   [[]; []] (set_wait_count 6 init) (set_wait_count 0 init) H1 _ _)).
  - discriminate.
  - reflexivity.
Defined.

(** X19: a disconnect, error or close notification ends the session
    wherever it stands in its cycle: the notifications before it are
    handled, those after it and all later cycles are not; only the
    disconnect adds 8 to the counter on the way out. *)
Theorem exit_notification_ends_the_session
  (pre post : list notification) (n : notification)
  (rest : list (list notification)) (s s1 : state) :
  wait_count s < 7 ->
  for_each pre dispatch s = (inr tt, s1) ->
  n ∈ [Disconnect; Error; Close] ->
  main ((pre ++ n :: post) :: rest) s
  = Exited (match n with
            | Disconnect => set_wait_count (wait_count s1 + 8) s1
            | _ => s1
            end).
Proof.
  intros Hlt Hpre Hn. rewrite main_cons by exact Hlt.
  assert (E : dispatch n s1
              = (inl SystemExit,
                 match n with
                 | Disconnect => set_wait_count (wait_count s1 + 8) s1
                 | _ => s1
                 end)).
  { absurd_membership; subst n; reflexivity. }
  rewrite (for_each_raises dispatch pre n post SystemExit s s1 _ Hpre E). reflexivity.
Qed.

Lemma exit_notification_ends_the_session_witness :
  wait_count init < 7
  /\ main (([DataUpdate (sample_env 0) no_data] ++ Close :: [Disconnect]) :: [[]]) init
     = Exited (set_wait_count 0 init).
Proof.
  assert (H1 : wait_count init < 7) by (simpl; lia).
  split; [exact H1 |].
  refine (exit_notification_ends_the_session [DataUpdate (sample_env 0) no_data]
            [Disconnect] Close [[]] init (set_wait_count 0 init) H1 _ _).
  - reflexivity.
  - apply list_elem_of_further, list_elem_of_further, list_elem_of_here.
Defined.

(** X20: [on_dataUpdate] lets no exception but the process exit escape,
    and it leaves the counter at zero in either case. *)
Theorem data_update_returns_or_exits (e : env) (data : update) (s : state) :
  ((on_dataUpdate e data s).1 = inr tt \/ (on_dataUpdate e data s).1 = inl SystemExit)
  /\ wait_count (on_dataUpdate e data s).2 = 0.
Proof.
  split; [| apply on_dataUpdate_wait_count].
  unfold on_dataUpdate, except_exit.
  match goal with
  | |- context [match ?m ?s0 with _ => _ end] => destruct (m s0) as [[ex|[]] s1]
  end; [right | left]; reflexivity.
Qed.
